(** * Crop recommendation service: a model of [app.py] and its properties

    The Flask application has seven routes; four of them ([register], [login],
    [crop_recommendation], [admin_data]) read or write the two tables
    [Farmer] and [CropRecommendation].  This development embeds those four
    view functions, the module-level globals they read ([model],
    [MODEL_ACCURACY], [predict_crop_mock]) and the part of the ORM they use,
    and proves the behaviour the specification states for them.

    Python values are kept dynamic ([pyval]); a Python call that can raise is
    a computation in an exception-and-state monad [M], so that the
    [try]/[except] blocks of the source are written as they stand. *)

From Stdlib Require Import ZArith List String Bool Lia Permutation Sorted QArith.
Import ListNotations.
Open Scope string_scope.
Open Scope Z_scope.

Set Implicit Arguments.

(** ** Python values and exceptions *)

(** A raised exception: its class and the text that [str(e)] returns. *)
Record exn : Type := Exception { exn_class : string; exn_text : string }.

Definition str_exn (e : exn) : string := exn_text e.

(** The outcome of a Python call: a value, or a raised exception. *)
Inductive result (A : Type) : Type :=
| Ok (a : A)
| Raise (e : exn).
Arguments Ok {A} a.
Arguments Raise {A} e.

Definition result_bind {A B : Type} (r : result A) (k : A -> result B) : result B :=
  match r with
  | Ok a => k a
  | Raise e => Raise e
  end.

(** Python values, over a type [F] of floating-point numbers: the values a
    decoded JSON document is made of, and [PObject] for any other object
    (bytes, a numpy scalar), of which the code uses the type name and, when
    the object exports the buffer protocol, its bytes.  A [PDict] keeps its
    items as an association list; a lookup takes the first item with the
    key. *)
#[local] Unset Elimination Schemes.
Inductive pyval (F : Type) : Type :=
| PNone
| PBool (b : bool)
| PInt (z : Z)
| PFloat (x : F)
| PStr (s : string)
| PList (l : list (pyval F))
| PDict (d : list (string * pyval F))
| PObject (type_name : string) (buffer : option string).
#[local] Set Elimination Schemes.
Arguments PNone {F}.
Arguments PBool {F} b.
Arguments PInt {F} z.
Arguments PFloat {F} x.
Arguments PStr {F} s.
Arguments PList {F} l.
Arguments PDict {F} d.
Arguments PObject {F} type_name buffer.

(** What the code borrows from Python and from the database driver, and
    does not define itself:
    - [float], the floating-point numbers, with the builtin [float(v)]
      ([py_float], which raises on a value it cannot convert), the float a
      decimal literal [m * 10^e] denotes, the comparisons of a float with
      an integer literal, and the test for NaN;
    - [str(v)] as an f-string inserts it ([py_str]);
    - [bind_text], the value a text column receives when [v] is passed as a
      statement parameter: [Some s], SQL NULL ([None]), or an error of the
      driver.  A string is passed as it is and [None] is NULL; nothing is
      assumed about other values. *)
Class Platform : Type := {
  float : Type;
  py_float : pyval float -> result float;
  float_literal : Z -> Z -> float;
  float_gt : float -> Z -> bool;
  float_lt : float -> Z -> bool;
  float_is_nan : float -> bool;
  py_str : pyval float -> string;
  py_str_str : forall s, py_str (PStr s) = s;
  bind_text : pyval float -> result (option string);
  bind_text_str : forall s, bind_text (PStr s) = Ok (Some s);
  bind_text_none : bind_text PNone = Ok None
}.

Section Application.

Context {pf : Platform}.

Definition value : Type := pyval float.

Fixpoint assoc_get (d : list (string * value)) (k : string) : option value :=
  match d with
  | [] => None
  | (k', v) :: rest => if String.eqb k' k then Some v else assoc_get rest k
  end.

(** [data.get(k)]: [None] for a missing key; only a dict has the method. *)
Definition py_get (data : value) (k : string) : result value :=
  match data with
  | PDict d => match assoc_get d k with
               | Some v => Ok v
               | None => Ok PNone
               end
  | _ => Raise (Exception "AttributeError" "object has no attribute 'get'")
  end.

(** [data[k]] with a string key [k]. *)
Definition py_getitem (data : value) (k : string) : result value :=
  match data with
  | PDict d => match assoc_get d k with
               | Some v => Ok v
               | None => Raise (Exception "KeyError" k)
               end
  | PList _ => Raise (Exception "TypeError" "list indices must be integers or slices, not str")
  | PStr _ => Raise (Exception "TypeError" "string indices must be integers, not 'str'")
  | _ => Raise (Exception "TypeError" "object is not subscriptable")
  end.

(** Whether [json.dumps] takes the value: it does unless an object that
    JSON cannot carry occurs in it. *)
Fixpoint serializable (v : value) : bool :=
  match v with
  | PObject _ _ => false
  | PList l => forallb serializable l
  | PDict d => forallb (fun item => serializable (snd item)) d
  | _ => true
  end.

(** [xs[0]] *)
Definition index0 {A : Type} (xs : list A) : result A :=
  match xs with
  | x :: _ => Ok x
  | [] => Raise (Exception "IndexError" "index 0 is out of bounds")
  end.

(** ** The two tables *)

(** [class Farmer(db.Model)]: both text columns are [nullable=False], so a
    stored row holds strings. *)
Record Farmer : Type := {
  f_id : Z;
  f_email : string;
  f_password : string
}.

(** What SQLite holds in a text column that is not NULL: text, or a BLOB
    when the value bound was bytes. *)
Inductive sqltext : Type :=
| Text (s : string)
| Blob (b : string).

(** [class CropRecommendation(db.Model)]: the seven [db.Float] columns are
    nullable.  [farmer_email] comes from a JSON body and is text;
    [crop_name] comes from the model. *)
Record CropRecommendation : Type := {
  r_id : Z;
  r_farmer_email : string;
  r_crop_name : sqltext;
  r_N : option float;
  r_P : option float;
  r_K : option float;
  r_Temperature : option float;
  r_Humidity : option float;
  r_PH : option float;
  r_Rainfall : option float
}.

(** The database file: the committed rows of both tables, in rowid order. *)
Record Database : Type := {
  farmers : list Farmer;
  recommendations : list CropRecommendation
}.

(** The database engine as a request finds it: [Up], or [Down e] when it
    cannot serve statements (file unreadable, table missing) and every
    statement raises [e]. *)
Inductive Engine : Type :=
| Up
| Down (e : exn).

(** An object built by a view function and not stored yet; its fields are
    the Python values the constructor was given. *)
Inductive pending : Type :=
| NewFarmer (email password : value)
| NewRecommendation (farmer_email : value) (crop_name : value)
                    (N P K Temperature Humidity PH Rainfall : float).

(** [db.session] during one request: the engine, the database and the
    added objects. *)
Record Session : Type := {
  engine : Engine;
  store : Database;
  added : list pending
}.

(** ** Computations that raise and use the session *)

Definition M (A : Type) : Type := Session -> result A * Session.

Definition ret {A : Type} (a : A) : M A := fun s => (Ok a, s).

Definition raise {A : Type} (e : exn) : M A := fun s => (Raise e, s).

Definition bind {A B : Type} (c : M A) (k : A -> M B) : M B :=
  fun s => match c s with
           | (Ok a, s') => k a s'
           | (Raise e, s') => (Raise e, s')
           end.

Definition lift {A : Type} (r : result A) : M A := fun s => (r, s).

(** [try: body except Exception as e: handler(e)] *)
Definition try_except {A : Type} (body : M A) (handler : exn -> M A) : M A :=
  fun s => match body s with
           | (Ok a, s') => (Ok a, s')
           | (Raise e, s') => handler e s'
           end.

End Application.

Declare Scope py_scope.
Delimit Scope py_scope with py.
Notation "x <- c ;; k" := (bind c (fun x => k))
  (at level 61, c at next level, right associativity) : py_scope.
Notation "c ;;; k" := (bind c (fun _ => k))
  (at level 61, right associativity) : py_scope.

Open Scope py_scope.

(** ** The ORM calls of the view functions *)

Section Orm.

Context {pf : Platform}.

(** Every statement fails while the engine is down. *)
Definition engine_check (s : Session) : result unit :=
  match engine s with
  | Down e => Raise e
  | Up => Ok tt
  end.

(** The rowid SQLite gives a row inserted without one: one more than the
    largest in the table, 1 in an empty table. *)
Definition next_rowid (ids : list Z) : Z :=
  match ids with
  | [] => 1
  | i :: rest => fold_right Z.max i rest + 1
  end.

Definition email_taken (email : string) (db : Database) : bool :=
  existsb (fun f => String.eqb (f_email f) email) (farmers db).

(** The value the [crop_name] column receives: an object that exports
    its bytes is stored as a BLOB; any other value goes the way of a text
    parameter. *)
Definition bind_crop_name (v : value) : result (option sqltext) :=
  match v with
  | PObject _ (Some b) => Ok (Some (Blob b))
  | _ => result_bind (bind_text v) (fun t => Ok (option_map Text t))
  end.

(** The value a [db.Float] column receives: SQLite stores a NaN as NULL. *)
Definition sql_float (x : float) : option float :=
  if float_is_nan x then None else Some x.

(** INSERT of one added object, under the constraints of its table:
    [nullable=False] on the text columns and [unique=True] on
    [Farmer.email]. *)
Definition insert (o : pending) (db : Database) : result Database :=
  match o with
  | NewFarmer email password =>
      result_bind (bind_text email) (fun e =>
      result_bind (bind_text password) (fun p =>
      match e, p with
      | Some e, Some p =>
          if email_taken e db
          then Raise (Exception "IntegrityError" "UNIQUE constraint failed: farmer.email")
          else Ok {| farmers := farmers db ++
                                [{| f_id := next_rowid (map f_id (farmers db));
                                    f_email := e; f_password := p |}];
                     recommendations := recommendations db |}
      | None, _ => Raise (Exception "IntegrityError" "NOT NULL constraint failed: farmer.email")
      | _, None => Raise (Exception "IntegrityError" "NOT NULL constraint failed: farmer.password")
      end))
  | NewRecommendation farmer_email crop N P K Temperature Humidity PH Rainfall =>
      result_bind (bind_text farmer_email) (fun e =>
      result_bind (bind_crop_name crop) (fun c =>
      match e, c with
      | Some e, Some c =>
          Ok {| farmers := farmers db;
                recommendations := recommendations db ++
                  [{| r_id := next_rowid (map r_id (recommendations db));
                      r_farmer_email := e; r_crop_name := c;
                      r_N := sql_float N; r_P := sql_float P; r_K := sql_float K;
                      r_Temperature := sql_float Temperature;
                      r_Humidity := sql_float Humidity;
                      r_PH := sql_float PH; r_Rainfall := sql_float Rainfall |}] |}
      | None, _ => Raise (Exception "IntegrityError"
                            "NOT NULL constraint failed: crop_recommendation.farmer_email")
      | _, None => Raise (Exception "IntegrityError"
                            "NOT NULL constraint failed: crop_recommendation.crop_name")
      end))
  end.

Fixpoint flush (objs : list pending) (db : Database) : result Database :=
  match objs with
  | [] => Ok db
  | o :: rest => result_bind (insert o db) (flush rest)
  end.

(** [db.session.add(obj)] *)
Definition db_session_add (o : pending) : M unit :=
  fun s => (Ok tt, {| engine := engine s; store := store s; added := added s ++ [o] |}).

(** [db.session.commit()]: the added objects are inserted in one
    transaction; if an insert fails nothing is stored and the error is
    raised. *)
Definition db_session_commit : M unit :=
  fun s => match result_bind (engine_check s) (fun _ => flush (added s) (store s)) with
           | Ok db' => (Ok tt, {| engine := engine s; store := db'; added := [] |})
           | Raise e => (Raise e, {| engine := engine s; store := store s; added := [] |})
           end.

(** A filter [column = v] on a text column that holds no NULL. *)
Definition text_matches (v : option string) (stored : string) : bool :=
  match v with
  | Some s => String.eqb stored s
  | None => false
  end.

(** [Farmer.query.filter_by(email=email).first()] *)
Definition Farmer_query_filter_by_email_first (email : value) : M (option Farmer) :=
  fun s => (result_bind (engine_check s) (fun _ =>
            result_bind (bind_text email) (fun e =>
            Ok (find (fun f => text_matches e (f_email f)) (farmers (store s))))), s).

(** [Farmer.query.filter_by(email=email, password=password).first()] *)
Definition Farmer_query_filter_by_email_password_first (email password : value)
  : M (option Farmer) :=
  fun s => (result_bind (engine_check s) (fun _ =>
            result_bind (bind_text email) (fun e =>
            result_bind (bind_text password) (fun p =>
            Ok (find (fun f => text_matches e (f_email f) && text_matches p (f_password f))
                     (farmers (store s)))))), s).

(** [Farmer.query.all()] *)
Definition Farmer_query_all : M (list Farmer) :=
  fun s => (result_bind (engine_check s) (fun _ => Ok (farmers (store s))), s).

Fixpoint insert_desc (r : CropRecommendation) (l : list CropRecommendation)
  : list CropRecommendation :=
  match l with
  | [] => [r]
  | x :: rest => if r_id x <=? r_id r then r :: l else x :: insert_desc r rest
  end.

(** ORDER BY id DESC *)
Definition order_by_id_desc (l : list CropRecommendation) : list CropRecommendation :=
  fold_right insert_desc [] l.

(** [CropRecommendation.query.order_by(CropRecommendation.id.desc()).all()] *)
Definition CropRecommendation_query_order_by_id_desc_all : M (list CropRecommendation) :=
  fun s => (result_bind (engine_check s) (fun _ =>
            Ok (order_by_id_desc (recommendations (store s)))), s).

End Orm.

Arguments email_taken {pf} email db : simpl never.
Arguments insert {pf} o db : simpl never.
Arguments bind_crop_name {pf} v : simpl never.
Arguments sql_float {pf} x : simpl never.
Arguments text_matches v stored : simpl never.
Arguments next_rowid ids : simpl never.
Arguments order_by_id_desc {pf} l : simpl never.

(** ** Module globals and the view functions *)

Section Views.

Context {pf : Platform}.

(** [MODEL_ACCURACY = 99.32] *)
Definition MODEL_ACCURACY : float := float_literal 9932 (-2).

(** The unpickled object, as far as the code uses it: [predict] takes the
    rows of features and returns one label per row, or raises.  A label is
    whatever Python value the model was trained to give: a string, or
    bytes, a number, [None], a numpy scalar. *)
Definition Classifier : Type := list (list float) -> result (list value).

(** Model loading at import time: [file] is [None] when [MODEL_PATH] does
    not exist, else the outcome of [pickle.load]: an error, or the pickled
    object, which may be [None] itself.  [model] is the object when the
    file was there and loaded, and stays [None] otherwise. *)
Definition load_model (file : option (result (option Classifier))) : option Classifier :=
  match file with
  | Some (Ok obj) => obj
  | Some (Raise _) => None
  | None => None
  end.

(** [def predict_crop_mock(features)] *)
Definition predict_crop_mock (features : list float) : result string :=
  match features with
  | [N; P; K; temp; humidity; ph; rainfall] =>
      if float_gt N 100 && float_gt temp 25 then Ok "Cotton"
      else if float_gt K 50 && float_lt ph 6 then Ok "Rice"
      else if float_gt P 50 && float_lt humidity 70 then Ok "Wheat"
      else if float_lt temp 20 && float_gt rainfall 200 then Ok "Grapes"
      else Ok "Maize"
  | _ => Raise (Exception "ValueError" "wrong number of values to unpack (expected 7)")
  end.

(** The names of the module the recommendation route can see: the loaded
    [model] and the fallback function. *)
Record Globals : Type := {
  model : option Classifier;
  fallback : list float -> result string
}.

Definition app_globals (file : option (result (option Classifier))) : Globals :=
  {| model := load_model file; fallback := predict_crop_mock |}.

(** A request, as far as the views read it: the decoded JSON body, or the
    error [request.get_json()] raises on a body that is not JSON. *)
Record Request : Type := { request_json : result value }.

(** What a view returns: the JSON document and the status code. *)
Record Response : Type := { body : value; status : Z }.

(** [jsonify(d)]: the response with the document, or the [TypeError] of
    [json.dumps] on an object it cannot carry. *)
Definition jsonify (d : list (string * value)) : result Response :=
  if serializable (PDict d)
  then Ok {| body := PDict d; status := 200 |}
  else Raise (Exception "TypeError" "Object is not JSON serializable").

Definition with_status (r : Response) (code : Z) : Response :=
  {| body := body r; status := code |}.

(** [jsonify(d), code] *)
Definition jsonify_status (d : list (string * value)) (code : Z) : result Response :=
  result_bind (jsonify d) (fun r => Ok (with_status r code)).

(** [def register()] *)
Definition register (req : Request) : M Response :=
  data <- lift (request_json req) ;;
  email <- lift (py_get data "email") ;;
  password <- lift (py_get data "password") ;;
  existing <- Farmer_query_filter_by_email_first email ;;
  match existing with
  | Some _ =>
      lift (jsonify_status [("success", PBool false);
                            ("message", PStr "Email already registered!")] 400)
  | None =>
      db_session_add (NewFarmer email password) ;;;
      db_session_commit ;;;
      lift (jsonify [("success", PBool true);
                     ("message", PStr "Registration successful!")])
  end.

(** [def login()] *)
Definition login (req : Request) : M Response :=
  data <- lift (request_json req) ;;
  email <- lift (py_get data "email") ;;
  password <- lift (py_get data "password") ;;
  farmer <- Farmer_query_filter_by_email_password_first email password ;;
  match farmer with
  | Some _ =>
      lift (jsonify [("success", PBool true);
                     ("message", PStr ("Welcome " ++ py_str email ++ "!"))])
  | None =>
      lift (jsonify_status [("success", PBool false);
                            ("message", PStr "Invalid credentials.")] 401)
  end.

(** [float(data[k])] *)
Definition float_item (data : value) (k : string) : result float :=
  result_bind (py_getitem data k) py_float.

(** The [try] block of [crop_recommendation]. *)
Definition crop_recommendation_try (predict : Classifier) (req : Request) : M Response :=
  data <- lift (request_json req) ;;
  N <- lift (float_item data "N") ;;
  P <- lift (float_item data "P") ;;
  K <- lift (float_item data "K") ;;
  Temp <- lift (float_item data "Temperature") ;;
  Hum <- lift (float_item data "Humidity") ;;
  PH <- lift (float_item data "PH") ;;
  Rain <- lift (float_item data "Rainfall") ;;
  farmer_email <- lift (py_getitem data "farmer_email") ;;
  let features := [[N; P; K; Temp; Hum; PH; Rain]] in
  prediction <- lift (result_bind (predict features) index0) ;;
  let new_rec := NewRecommendation farmer_email prediction N P K Temp Hum PH Rain in
  db_session_add new_rec ;;;
  db_session_commit ;;;
  lift (jsonify [("success", PBool true);
                 ("recommended_crop", prediction);
                 ("model_accuracy", PFloat MODEL_ACCURACY);
                 ("message", PStr "Crop recommended successfully!")]).

(** [def crop_recommendation()] *)
Definition crop_recommendation (g : Globals) (req : Request) : M Response :=
  match model g with
  | None =>
      lift (jsonify_status [("success", PBool false);
                            ("message", PStr "ML Model is not loaded.")] 503)
  | Some m =>
      try_except (crop_recommendation_try m req)
        (fun e =>
           lift (jsonify_status
                   [("success", PBool false);
                    ("message", PStr "Error processing request. Check input data.")]
                   500))
  end.

Definition json_float (x : option float) : value :=
  match x with
  | Some x => PFloat x
  | None => PNone
  end.

(** The Python value of a stored text column: [str], or [bytes] for a
    BLOB. *)
Definition text_value (c : sqltext) : value :=
  match c with
  | Text s => PStr s
  | Blob b => PObject "bytes" (Some b)
  end.

Definition farmer_entry (f : Farmer) : value :=
  PDict [("id", PInt (f_id f)); ("email", PStr (f_email f))].

Definition recommendation_entry (r : CropRecommendation) : value :=
  PDict [("id", PInt (r_id r));
         ("farmer_email", PStr (r_farmer_email r));
         ("crop_name", text_value (r_crop_name r));
         ("N", json_float (r_N r));
         ("P", json_float (r_P r));
         ("K", json_float (r_K r));
         ("Temperature", json_float (r_Temperature r));
         ("Humidity", json_float (r_Humidity r));
         ("PH", json_float (r_PH r));
         ("Rainfall", json_float (r_Rainfall r))].

(** The [try] block of [admin_data]. *)
Definition admin_data_try : M Response :=
  farmers <- Farmer_query_all ;;
  let farmer_list := map farmer_entry farmers in
  recs <- CropRecommendation_query_order_by_id_desc_all ;;
  let rec_list := map recommendation_entry recs in
  lift (jsonify [("success", PBool true);
                 ("farmers", PList farmer_list);
                 ("recommendations", PList rec_list)]).

(** [def admin_data()] *)
Definition admin_data : M Response :=
  try_except admin_data_try
    (fun e =>
       lift (jsonify_status [("success", PBool false);
                             ("message", PStr (str_exn e))] 500)).

(** ** Serving requests *)

(** One request: the view runs on a fresh session over the database; what
    it committed stays, the session is dropped.  A view that raises leaves
    the error to Flask. *)
Definition serve (eng : Engine) (view : M Response) (db : Database)
  : result Response * Database :=
  let (r, s) := view {| engine := eng; store := db; added := [] |} in (r, store s).

Inductive Call : Type :=
| CallRegister (req : Request)
| CallLogin (req : Request)
| CallCropRecommendation (req : Request)
| CallAdminData.

Definition view_of (g : Globals) (c : Call) : M Response :=
  match c with
  | CallRegister req => register req
  | CallLogin req => login req
  | CallCropRecommendation req => crop_recommendation g req
  | CallAdminData => admin_data
  end.

(** The database after a sequence of calls, each with the state the engine
    is in when it arrives. *)
Definition run_calls (g : Globals) (calls : list (Engine * Call)) (db : Database)
  : Database :=
  fold_left (fun db c => snd (serve (fst c) (view_of g (snd c)) db)) calls db.

End Views.

(** ** A platform to run the views on

    Floats are exact rationals here, none of them a NaN; [float] converts
    integers, booleans and strings of decimal digits and raises on anything
    else, and the driver takes only strings and [None] as text parameters.
    The examples below use its behaviour on integers and strings only. *)

Module Exact.

Definition is_digit (c : Ascii.ascii) : bool :=
  let n := Ascii.nat_of_ascii c in (48 <=? n)%nat && (n <=? 57)%nat.

Fixpoint digits_value (acc : Z) (s : string) : option Z :=
  match s with
  | EmptyString => Some acc
  | String c rest =>
      if is_digit c
      then digits_value (10 * acc + (Z.of_nat (Ascii.nat_of_ascii c) - 48)) rest
      else None
  end.

Definition float_of_value (v : pyval Q) : result Q :=
  match v with
  | PInt z => Ok (inject_Z z)
  | PFloat x => Ok x
  | PBool b => Ok (inject_Z (if b then 1 else 0))
  | PStr EmptyString => Raise (Exception "ValueError" "could not convert string to float")
  | PStr s => match digits_value 0 s with
              | Some z => Ok (inject_Z z)
              | None => Raise (Exception "ValueError" "could not convert string to float")
              end
  | _ => Raise (Exception "TypeError" "float() argument must be a string or a real number")
  end.

Definition literal (m e : Z) : Q := Qred (inject_Z m * Qpower (inject_Z 10) e).

Definition gt (x : Q) (n : Z) : bool := negb (Qle_bool x (inject_Z n)).

Definition lt (x : Q) (n : Z) : bool := negb (Qle_bool (inject_Z n) x).

Definition str_of_value (v : pyval Q) : string :=
  match v with
  | PStr s => s
  | PNone => "None"
  | PBool true => "True"
  | PBool false => "False"
  | _ => "<object>"
  end.

Definition text_parameter (v : pyval Q) : result (option string) :=
  match v with
  | PStr s => Ok (Some s)
  | PNone => Ok None
  | _ => Raise (Exception "InterfaceError" "Error binding parameter: type is not supported")
  end.

Definition platform : Platform :=
  {| float := Q;
     py_float := float_of_value;
     float_literal := literal;
     float_gt := gt;
     float_lt := lt;
     float_is_nan := fun _ => false;
     py_str := str_of_value;
     py_str_str := fun s => eq_refl;
     bind_text := text_parameter;
     bind_text_str := fun s => eq_refl;
     bind_text_none := eq_refl |}.

End Exact.

#[global] Existing Instance Exact.platform.

(** The same platform with a NaN among the floats ([None]), which
    [float("nan")] returns and every comparison rejects. *)
Module WithNaN.

Definition float_of_value (v : pyval (option Q)) : result (option Q) :=
  match v with
  | PFloat x => Ok x
  | PStr "nan" => Ok None
  | PInt z => Ok (Some (inject_Z z))
  | PBool b => Ok (Some (inject_Z (if b then 1 else 0)))
  | PStr EmptyString => Raise (Exception "ValueError" "could not convert string to float")
  | PStr s => match Exact.digits_value 0 s with
              | Some z => Ok (Some (inject_Z z))
              | None => Raise (Exception "ValueError" "could not convert string to float")
              end
  | _ => Raise (Exception "TypeError" "float() argument must be a string or a real number")
  end.

Definition gt (x : option Q) (n : Z) : bool :=
  match x with
  | Some q => Exact.gt q n
  | None => false
  end.

Definition lt (x : option Q) (n : Z) : bool :=
  match x with
  | Some q => Exact.lt q n
  | None => false
  end.

Definition is_nan (x : option Q) : bool :=
  match x with
  | Some _ => false
  | None => true
  end.

Definition str_of_value (v : pyval (option Q)) : string :=
  match v with
  | PStr s => s
  | PNone => "None"
  | PBool true => "True"
  | PBool false => "False"
  | _ => "<object>"
  end.

Definition text_parameter (v : pyval (option Q)) : result (option string) :=
  match v with
  | PStr s => Ok (Some s)
  | PNone => Ok None
  | _ => Raise (Exception "InterfaceError" "Error binding parameter: type is not supported")
  end.

Definition platform : Platform :=
  {| float := option Q;
     py_float := float_of_value;
     float_literal := fun m e => Some (Exact.literal m e);
     float_gt := gt;
     float_lt := lt;
     float_is_nan := is_nan;
     py_str := str_of_value;
     py_str_str := fun s => eq_refl;
     bind_text := text_parameter;
     bind_text_str := fun s => eq_refl;
     bind_text_none := eq_refl |}.

End WithNaN.

(** ** Vocabulary of the properties *)

Section Vocabulary.

Context {pf : Platform}.

(** The four fixed documents the views answer with. *)
Definition email_already_registered : Response :=
  {| body := PDict [("success", PBool false); ("message", PStr "Email already registered!")];
     status := 400 |}.

Definition registration_successful : Response :=
  {| body := PDict [("success", PBool true); ("message", PStr "Registration successful!")];
     status := 200 |}.

Definition invalid_credentials : Response :=
  {| body := PDict [("success", PBool false); ("message", PStr "Invalid credentials.")];
     status := 401 |}.

Definition model_not_loaded : Response :=
  {| body := PDict [("success", PBool false); ("message", PStr "ML Model is not loaded.")];
     status := 503 |}.

Definition error_processing_request : Response :=
  {| body := PDict [("success", PBool false);
                    ("message", PStr "Error processing request. Check input data.")];
     status := 500 |}.

Definition welcome (email : string) : Response :=
  {| body := PDict [("success", PBool true); ("message", PStr ("Welcome " ++ email ++ "!"))];
     status := 200 |}.


Definition emails (db : Database) : list string := map f_email (farmers db).

(** The database with one more farmer, under the next rowid. *)
Definition with_farmer (db : Database) (email password : string) : Database :=
  {| farmers := farmers db ++ [{| f_id := next_rowid (map f_id (farmers db));
                                  f_email := email; f_password := password |}];
     recommendations := recommendations db |}.

(** The database with one more recommendation, under the next rowid. *)
Definition with_recommendation (db : Database) (email label : string)
    (N P K Temperature Humidity PH Rainfall : float) : Database :=
  {| farmers := farmers db;
     recommendations := recommendations db ++
       [{| r_id := next_rowid (map r_id (recommendations db));
           r_farmer_email := email; r_crop_name := Text label;
           r_N := Some N; r_P := Some P; r_K := Some K;
           r_Temperature := Some Temperature; r_Humidity := Some Humidity;
           r_PH := Some PH; r_Rainfall := Some Rainfall |}] |}.

(** Some stored farmer has this email and this password. *)
Definition credentials_stored (email password : option string) (db : Database) : Prop :=
  exists f, In f (farmers db) /\ Some (f_email f) = email /\ Some (f_password f) = password.

(** The lookup of [login] runs on this request and finds no farmer. *)
Definition fails_to_match (req : Request) (db : Database) : Prop :=
  exists data ve vp oe op,
    request_json req = Ok data /\
    py_get data "email" = Ok ve /\ py_get data "password" = Ok vp /\
    bind_text ve = Ok oe /\ bind_text vp = Ok op /\
    ~ credentials_stored oe op db.

(** The seven fields [crop_recommendation] coerces. *)
Definition numeric_fields : list string :=
  ["N"; "P"; "K"; "Temperature"; "Humidity"; "PH"; "Rainfall"].

(** The coercion of field [k] of the request raises. *)
Definition coercion_raises (req : Request) (k : string) : Prop :=
  exists e, result_bind (request_json req) (fun data => float_item data k) = Raise e.

(** The [try] block of [crop_recommendation] raises on this request. *)
Definition try_block_raises (eng : Engine) (m : Classifier) (req : Request)
    (db : Database) : Prop :=
  exists e s,
    crop_recommendation_try m req {| engine := eng; store := db; added := [] |} = (Raise e, s).

(** Steps 1 to 4 of the [try] block of [crop_recommendation]: all of it
    up to and with the commit, before the response is built.  It returns
    the prediction. *)
Definition crop_recommendation_steps_1_to_4 (predict : Classifier) (req : Request)
  : M value :=
  data <- lift (request_json req) ;;
  N <- lift (float_item data "N") ;;
  P <- lift (float_item data "P") ;;
  K <- lift (float_item data "K") ;;
  Temp <- lift (float_item data "Temperature") ;;
  Hum <- lift (float_item data "Humidity") ;;
  PH <- lift (float_item data "PH") ;;
  Rain <- lift (float_item data "Rainfall") ;;
  farmer_email <- lift (py_getitem data "farmer_email") ;;
  let features := [[N; P; K; Temp; Hum; PH; Rain]] in
  prediction <- lift (result_bind (predict features) index0) ;;
  let new_rec := NewRecommendation farmer_email prediction N P K Temp Hum PH Rain in
  db_session_add new_rec ;;;
  db_session_commit ;;;
  ret prediction.

(** The [try] block raises before the response is built: at the coercion,
    the lookup of the email, the prediction or the commit. *)
Definition raises_before_response (eng : Engine) (m : Classifier) (req : Request)
    (db : Database) : Prop :=
  exists e s,
    crop_recommendation_steps_1_to_4 m req {| engine := eng; store := db; added := [] |}
    = (Raise e, s).

Definition is_text (c : sqltext) : bool :=
  match c with
  | Text _ => true
  | Blob _ => false
  end.

(** What [admin_data] answers when [json.dumps] refuses the document. *)
Definition not_serializable : Response :=
  {| body := PDict [("success", PBool false);
                    ("message", PStr "Object is not JSON serializable")];
     status := 500 |}.

(** Every stored [crop_name] is text, as the column is declared. *)
Definition crop_names_are_text (db : Database) : Prop :=
  forall r, In r (recommendations db) -> exists s, r_crop_name r = Text s.


(** What one request can do to the database: nothing, or one insert. *)
Definition committed (db db' : Database) : Prop :=
  db' = db \/ exists o, insert o db = Ok db'.

(** The database before the first request. *)
Definition no_rows : Database := {| farmers := []; recommendations := [] |}.

(** A recommendation whose [farmer_email] is no stored farmer's email. *)
Definition dangling (r : CropRecommendation) (db : Database) : Prop :=
  In r (recommendations db) /\ ~ In (r_farmer_email r) (emails db).

End Vocabulary.

(** ** Sample data on the exact platform *)

Module Sample.

Definition empty_db : @Database Exact.platform :=
  {| farmers := []; recommendations := [] |}.

Definition credentials (email password : string) : @Request Exact.platform :=
  {| request_json := Ok (PDict [("email", PStr email); ("password", PStr password)]) |}.

(** [{N:120, P:10, K:10, Temperature:30, Humidity:50, PH:5, Rainfall:100}]
    with a farmer email. *)
Definition measurements (N : pyval Q) : @Request Exact.platform :=
  {| request_json :=
       Ok (PDict [("N", N); ("P", PInt 10); ("K", PInt 10); ("Temperature", PInt 30);
                  ("Humidity", PInt 50); ("PH", PInt 5); ("Rainfall", PInt 100);
                  ("farmer_email", PStr "ravi@farm.example")]) |}.

(** A classifier that answers every row with the same label. *)
Definition constant_classifier (label : string) : @Classifier Exact.platform :=
  fun rows => Ok (map (fun _ => PStr label) rows).


Definition loaded (m : @Classifier Exact.platform) : @Globals Exact.platform :=
  app_globals (Some (Ok (Some m))).

Definition not_loaded : @Globals Exact.platform := app_globals None.

Definition one_farmer : @Database Exact.platform :=
  with_farmer empty_db "ravi@farm.example" "s3cret".

(** The sample farmer and two recommendations, ids 1 and 2. *)
Definition two_recommendations : @Database Exact.platform :=
  with_recommendation
    (with_recommendation one_farmer "ravi@farm.example" "Rice"
       (inject_Z 120) (inject_Z 10) (inject_Z 10) (inject_Z 30)
       (inject_Z 50) (inject_Z 5) (inject_Z 100))
    "ravi@farm.example" "Maize"
    (inject_Z 20) (inject_Z 30) (inject_Z 40) (inject_Z 22)
    (inject_Z 60) (inject_Z 7) (inject_Z 80).

(** One recommendation request on the empty database. *)
Definition only_a_recommendation : list (Engine * @Call Exact.platform) :=
  [(Up, CallCropRecommendation (measurements (PInt 120)))].

(** A classifier trained on integer class indices: every label is the
    [numpy.int64] 3, which exports its eight bytes. *)
Definition int64_classifier : @Classifier Exact.platform :=
  fun rows =>
    Ok (map (fun _ => PObject "int64"
                        (Some (String (Ascii.ascii_of_nat 3)
                                 (String Ascii.zero (String Ascii.zero (String Ascii.zero
                                 (String Ascii.zero (String Ascii.zero (String Ascii.zero
                                 (String Ascii.zero EmptyString))))))))))
            rows).

(** The measurements with [N] the string "nan", on the platform that has
    a NaN, and a classifier for it. *)
Definition measurements_nan : @Request WithNaN.platform :=
  {| request_json :=
       Ok (PDict [("N", PStr "nan"); ("P", PInt 10); ("K", PInt 10);
                  ("Temperature", PInt 30); ("Humidity", PInt 50); ("PH", PInt 5);
                  ("Rainfall", PInt 100); ("farmer_email", PStr "ravi@farm.example")]) |}.

Definition rice_for_nan : @Globals WithNaN.platform :=
  {| model := Some (fun rows => Ok (map (fun _ => PStr "Rice") rows));
     fallback := predict_crop_mock |}.

Definition file_unreadable : exn :=
  Exception "OperationalError" "(sqlite3.OperationalError) unable to open database file".

End Sample.

(** ** Further vocabulary *)

Section Outcomes.

Context {pf : Platform}.

(** The labels the fallback function can return. *)
Definition fallback_labels : list string := ["Cotton"; "Rice"; "Wheat"; "Grapes"; "Maize"].

(** The model file was missing, did not unpickle, or held [None]. *)
Definition load_failed (file : option (result (option Classifier))) : Prop :=
  file = None \/ (exists e, file = Some (Raise e)) \/ file = Some (Ok None).

(** The success document of [admin_data] for these rows, in this order. *)
Definition admin_document (fs : list Farmer) (rs : list CropRecommendation) : Response :=
  {| body := PDict [("success", PBool true);
                    ("farmers", PList (map farmer_entry fs));
                    ("recommendations", PList (map recommendation_entry rs))];
     status := 200 |}.

(** The ids 1, 2, ..., n. *)
Definition ids_from_one (n : nat) : list Z := map Z.of_nat (seq 1 n).

(** The row a successful recommendation stores. *)
Definition new_recommendation (db : Database) (email label : string)
    (N P K Temperature Humidity PH Rainfall : float) : CropRecommendation :=
  {| r_id := next_rowid (map r_id (recommendations db));
     r_farmer_email := email; r_crop_name := Text label;
     r_N := Some N; r_P := Some P; r_K := Some K;
     r_Temperature := Some Temperature; r_Humidity := Some Humidity;
     r_PH := Some PH; r_Rainfall := Some Rainfall |}.

End Outcomes.

Module MoreSamples.

(** A register or login body without a password. *)
Definition email_only (email : string) : @Request Exact.platform :=
  {| request_json := Ok (PDict [("email", PStr email)]) |}.

(** The measurements with [farmer_email] null. *)
Definition measurements_null_email : @Request Exact.platform :=
  {| request_json :=
       Ok (PDict [("N", PInt 120); ("P", PInt 10); ("K", PInt 10); ("Temperature", PInt 30);
                  ("Humidity", PInt 50); ("PH", PInt 5); ("Rainfall", PInt 100);
                  ("farmer_email", PNone)]) |}.

(** Two registrations, a login and two recommendations. *)
Definition busy_day : list (Engine * @Call Exact.platform) :=
  [(Up, CallRegister (Sample.credentials "asha@farm.example" "monsoon"));
   (Up, CallCropRecommendation (Sample.measurements (PInt 120)));
   (Up, CallLogin (Sample.credentials "asha@farm.example" "monsoon"));
   (Down Sample.file_unreadable, CallCropRecommendation (Sample.measurements (PInt 90)));
   (Up, CallCropRecommendation (Sample.measurements (PInt 60)));
   (Up, CallAdminData)].

End MoreSamples.

(** * Properties *)

Unset Implicit Arguments.

(** ** Lookups in the farmer table *)

Section Lookups.

Context {pf : Platform}.

Lemma email_taken_true (e : string) (db : Database) :
  email_taken e db = true <-> In e (emails db).
Proof.
  unfold email_taken, emails. rewrite existsb_exists. split.
  - intros [f [Hin Heq]]. apply String.eqb_eq in Heq. subst e.
    apply in_map. exact Hin.
  - intros Hin. apply in_map_iff in Hin. destruct Hin as [f [Heq Hin]].
    exists f. split; [exact Hin | apply String.eqb_eq; exact Heq].
Qed.

Lemma email_taken_false (e : string) (db : Database) :
  email_taken e db = false <-> ~ In e (emails db).
Proof.
  rewrite <- email_taken_true. destruct (email_taken e db); split; intro H.
  - discriminate.
  - exfalso. apply H. reflexivity.
  - discriminate.
  - reflexivity.
Qed.

Lemma find_email_some (e : string) (fs : list Farmer) :
  In e (map f_email fs) ->
  exists f, find (fun f => text_matches (Some e) (f_email f)) fs = Some f.
Proof.
  unfold text_matches.
  induction fs as [| f fs IH]; simpl; intros Hin.
  - contradiction.
  - destruct (String.eqb (f_email f) e) eqn:Heq.
    + exists f. reflexivity.
    + destruct Hin as [Hhead | Htail].
      * apply String.eqb_neq in Heq. contradiction.
      * apply IH. exact Htail.
Qed.

Lemma find_email_none (e : string) (fs : list Farmer) :
  ~ In e (map f_email fs) ->
  find (fun f => text_matches (Some e) (f_email f)) fs = None.
Proof.
  unfold text_matches.
  induction fs as [| f fs IH]; simpl; intros Hnot.
  - reflexivity.
  - destruct (String.eqb (f_email f) e) eqn:Heq.
    + apply String.eqb_eq in Heq. exfalso. apply Hnot. left. exact Heq.
    + apply IH. intros Hin. apply Hnot. right. exact Hin.
Qed.

Lemma find_null_email (fs : list Farmer) :
  find (fun f => text_matches None (f_email f)) fs = None.
Proof.
  unfold text_matches.
  induction fs as [| f fs IH]; simpl; [reflexivity | exact IH].
Qed.

Lemma text_matches_true (v : option string) (stored : string) :
  text_matches v stored = true <-> Some stored = v.
Proof.
  destruct v as [s |]; unfold text_matches.
  - rewrite String.eqb_eq. split; intro H; [subst; reflexivity | congruence].
  - split; intro H; discriminate.
Qed.

Lemma find_credentials_some (oe op : option string) (db : Database) :
  credentials_stored oe op db ->
  exists f, find (fun f => text_matches oe (f_email f) && text_matches op (f_password f))
                 (farmers db) = Some f.
Proof.
  intros [f [Hin [He Hp]]].
  destruct (find (fun f => text_matches oe (f_email f) && text_matches op (f_password f))
                 (farmers db)) as [f' |] eqn:Hfind.
  - exists f'. reflexivity.
  - exfalso. apply (find_none _ _ Hfind) in Hin.
    apply andb_false_iff in Hin.
    destruct Hin as [H | H]; apply not_true_iff_false in H; apply H;
      apply text_matches_true; assumption.
Qed.

Lemma find_credentials_none (oe op : option string) (db : Database) :
  ~ credentials_stored oe op db ->
  find (fun f => text_matches oe (f_email f) && text_matches op (f_password f))
       (farmers db) = None.
Proof.
  intros Hnot.
  destruct (find (fun f => text_matches oe (f_email f) && text_matches op (f_password f))
                 (farmers db)) as [f |] eqn:Hfind; [| reflexivity].
  exfalso. apply Hnot. apply find_some in Hfind. destruct Hfind as [Hin Hb].
  apply andb_true_iff in Hb. destruct Hb as [He Hp].
  exists f. repeat split; [exact Hin | |]; apply text_matches_true; assumption.
Qed.

Lemma insert_farmer_ok (db : Database) (e p : string) :
  ~ In e (emails db) ->
  insert (NewFarmer (PStr e) (PStr p)) db = Ok (with_farmer db e p).
Proof.
  intros Hnot. unfold insert, with_farmer.
  rewrite !bind_text_str. simpl.
  apply email_taken_false in Hnot. rewrite Hnot. reflexivity.
Qed.




End Lookups.

(** ** Running a view *)

(** Unfolds one request down to the ORM calls. *)
Ltac run_view :=
  unfold serve, register, login, crop_recommendation, crop_recommendation_try,
    admin_data, admin_data_try, try_except, bind, lift, ret,
    Farmer_query_filter_by_email_first, Farmer_query_filter_by_email_password_first,
    Farmer_query_all, CropRecommendation_query_order_by_id_desc_all,
    db_session_add, db_session_commit, engine_check; simpl.

Section Register.

Context {pf : Platform}.

Lemma register_conflict (db : Database) (req : Request) (data : value) (e : string)
    (vp : value) :
  request_json req = Ok data ->
  py_get data "email" = Ok (PStr e) ->
  py_get data "password" = Ok vp ->
  In e (emails db) ->
  serve Up (register req) db = (Ok email_already_registered, db).
Proof.
  intros Hjson Hemail Hpass Hin.
  destruct (find_email_some e (farmers db) Hin) as [f Hfind].
  run_view. rewrite Hjson, Hemail, Hpass. simpl.
  rewrite bind_text_str. simpl. rewrite Hfind. reflexivity.
Qed.

Lemma register_fresh (db : Database) (req : Request) (data : value) (e p : string) :
  request_json req = Ok data ->
  py_get data "email" = Ok (PStr e) ->
  py_get data "password" = Ok (PStr p) ->
  ~ In e (emails db) ->
  serve Up (register req) db = (Ok registration_successful, with_farmer db e p).
Proof.
  intros Hjson Hemail Hpass Hnot.
  pose proof (find_email_none e (farmers db) Hnot) as Hfind.
  run_view. rewrite Hjson, Hemail, Hpass. simpl.
  rewrite bind_text_str. simpl. rewrite Hfind. simpl.
  rewrite (insert_farmer_ok db e p Hnot). reflexivity.
Qed.

End Register.

Section RegisterClaims.

Context {pf : Platform}.

Lemma count_occ_fresh (e : string) (l : list string) :
  ~ In e l -> count_occ string_dec (l ++ [e]) e = 1%nat.
Proof.
  intros Hnot. rewrite count_occ_app.
  rewrite (proj1 (count_occ_not_In string_dec l e) Hnot). simpl.
  destruct (string_dec e e) as [_ | Hne]; [reflexivity | contradiction].
Qed.

(** C3.  A register request that gives an email and a password, served
    with the engine up: the view returns the 400 "Email already
    registered!" response and stores nothing exactly when a farmer with that
    email is stored; otherwise it appends one farmer row with that email and
    password and returns success.  Registering an email that was not stored
    twice in a row: the second call is refused and the table has gained
    exactly one row, the only one with that email. *)
Theorem register_conflict_iff_email_stored
    (db : Database) (req : Request) (data : value) (e p : string) :
  request_json req = Ok data ->
  py_get data "email" = Ok (PStr e) ->
  py_get data "password" = Ok (PStr p) ->
  (serve Up (register req) db = (Ok email_already_registered, db) <-> In e (emails db)) /\
  (~ In e (emails db) ->
   serve Up (register req) db = (Ok registration_successful, with_farmer db e p)) /\
  (~ In e (emails db) ->
   forall (req2 : Request) (data2 : value) (p2 : string),
     request_json req2 = Ok data2 ->
     py_get data2 "email" = Ok (PStr e) ->
     py_get data2 "password" = Ok (PStr p2) ->
     let db1 := snd (serve Up (register req) db) in
     let db2 := snd (serve Up (register req2) db1) in
     fst (serve Up (register req2) db1) = Ok email_already_registered /\
     farmers db2 = (farmers db ++ [{| f_id := next_rowid (map f_id (farmers db));
                                      f_email := e; f_password := p |}])%list /\
     count_occ string_dec (emails db2) e = 1%nat).
Proof.
  intros Hjson Hemail Hpass. split; [| split].
  - split.
    + intros Hrun. destruct (in_dec string_dec e (emails db)) as [Hin | Hnot].
      * exact Hin.
      * rewrite (register_fresh db req data e p Hjson Hemail Hpass Hnot) in Hrun.
        discriminate Hrun.
    + intros Hin. exact (register_conflict db req data e (PStr p) Hjson Hemail Hpass Hin).
  - intros Hnot. exact (register_fresh db req data e p Hjson Hemail Hpass Hnot).
  - intros Hnot req2 data2 p2 Hjson2 Hemail2 Hpass2 db1 db2.
    assert (Hdb1 : db1 = with_farmer db e p).
    { unfold db1. rewrite (register_fresh db req data e p Hjson Hemail Hpass Hnot).
      reflexivity. }
    assert (Hin1 : In e (emails db1)).
    { rewrite Hdb1. unfold emails, with_farmer. simpl. rewrite map_app.
      apply in_or_app. right. left. reflexivity. }
    pose proof (register_conflict db1 req2 data2 e (PStr p2) Hjson2 Hemail2 Hpass2 Hin1)
      as Hsecond.
    unfold db2. rewrite Hsecond. simpl. split; [reflexivity | split].
    + rewrite Hdb1. reflexivity.
    + rewrite Hdb1. unfold emails, with_farmer. simpl. rewrite map_app. simpl.
      apply count_occ_fresh. exact Hnot.
Qed.

End RegisterClaims.

Lemma register_conflict_iff_email_stored_witness :
  (serve Up (register (Sample.credentials "asha@farm.example" "monsoon")) Sample.one_farmer
   = (Ok email_already_registered, Sample.one_farmer)
   <-> In "asha@farm.example" (emails Sample.one_farmer)) /\
  (~ In "asha@farm.example" (emails Sample.one_farmer) ->
   serve Up (register (Sample.credentials "asha@farm.example" "monsoon")) Sample.one_farmer
   = (Ok registration_successful,
      with_farmer Sample.one_farmer "asha@farm.example" "monsoon")) /\
  (~ In "asha@farm.example" (emails Sample.one_farmer) ->
   forall (req2 : Request) (data2 : value) (p2 : string),
     request_json req2 = Ok data2 ->
     py_get data2 "email" = Ok (PStr "asha@farm.example") ->
     py_get data2 "password" = Ok (PStr p2) ->
     let db1 := snd (serve Up (register (Sample.credentials "asha@farm.example" "monsoon"))
                           Sample.one_farmer) in
     let db2 := snd (serve Up (register req2) db1) in
     fst (serve Up (register req2) db1) = Ok email_already_registered /\
     farmers db2 = (farmers Sample.one_farmer ++
                    [{| f_id := next_rowid (map f_id (farmers Sample.one_farmer));
                        f_email := "asha@farm.example"; f_password := "monsoon" |}])%list /\
     count_occ string_dec (emails db2) "asha@farm.example" = 1%nat).
Proof.
  exact (@register_conflict_iff_email_stored Exact.platform Sample.one_farmer
           (Sample.credentials "asha@farm.example" "monsoon")
           (PDict [("email", PStr "asha@farm.example"); ("password", PStr "monsoon")])
           "asha@farm.example" "monsoon" eq_refl eq_refl eq_refl).
Defined.

(** ** Login *)

Section LoginClaims.

Context {pf : Platform}.

Lemma login_match (db : Database) (req : Request) (data ve vp : value)
    (oe op : option string) :
  request_json req = Ok data ->
  py_get data "email" = Ok ve ->
  py_get data "password" = Ok vp ->
  bind_text ve = Ok oe ->
  bind_text vp = Ok op ->
  credentials_stored oe op db ->
  serve Up (login req) db = (Ok (welcome (py_str ve)), db).
Proof.
  intros Hjson Hemail Hpass He Hp Hstored.
  destruct (find_credentials_some oe op db Hstored) as [f Hfind].
  run_view. rewrite Hjson, Hemail, Hpass. simpl.
  rewrite He, Hp. simpl. rewrite Hfind. reflexivity.
Qed.

Lemma login_no_match (db : Database) (req : Request) :
  fails_to_match req db ->
  serve Up (login req) db = (Ok invalid_credentials, db).
Proof.
  intros [data [ve [vp [oe [op [Hjson [Hemail [Hpass [He [Hp Hnot]]]]]]]]]].
  pose proof (find_credentials_none oe op db Hnot) as Hfind.
  run_view. rewrite Hjson, Hemail, Hpass. simpl.
  rewrite He, Hp. simpl. rewrite Hfind. reflexivity.
Qed.

(** C6.  A login request served with the engine up, whose email and
    password the driver accepts as parameters: the view returns success with
    the greeting exactly when some stored farmer has both that email and
    that password; in every other case it returns the 401 response.  The
    database is not changed either way. *)
Theorem login_success_iff_credentials_stored
    (db : Database) (req : Request) (data ve vp : value) (oe op : option string) :
  request_json req = Ok data ->
  py_get data "email" = Ok ve ->
  py_get data "password" = Ok vp ->
  bind_text ve = Ok oe ->
  bind_text vp = Ok op ->
  (serve Up (login req) db = (Ok (welcome (py_str ve)), db) <-> credentials_stored oe op db) /\
  (~ credentials_stored oe op db -> serve Up (login req) db = (Ok invalid_credentials, db)).
Proof.
  intros Hjson Hemail Hpass He Hp.
  assert (Hno : ~ credentials_stored oe op db ->
                serve Up (login req) db = (Ok invalid_credentials, db)).
  { intros Hnot. apply login_no_match.
    exists data, ve, vp, oe, op. repeat split; assumption. }
  split; [split |].
  - intros Hrun.
    destruct (find (fun f => text_matches oe (f_email f) && text_matches op (f_password f))
                   (farmers db)) as [f |] eqn:Hfind.
    + apply find_some in Hfind. destruct Hfind as [Hin Hb].
      apply andb_true_iff in Hb. destruct Hb as [Hbe Hbp].
      exists f. repeat split; [exact Hin | |]; apply text_matches_true; assumption.
    + exfalso. assert (Hnot : ~ credentials_stored oe op db).
      { intros Hstored. destruct (find_credentials_some oe op db Hstored) as [f Hf].
        rewrite Hf in Hfind. discriminate Hfind. }
      rewrite (Hno Hnot) in Hrun. discriminate Hrun.
  - intros Hstored. exact (login_match db req data ve vp oe op Hjson Hemail Hpass He Hp Hstored).
  - exact Hno.
Qed.

(** C10.  Two login requests that both fail to match a stored farmer, on
    any two databases: both are answered with the same response, status 401
    and message "Invalid credentials.", whether the email is stored under
    another password or not stored at all. *)
Theorem login_failures_identical
    (db1 db2 : Database) (req1 req2 : Request) :
  fails_to_match req1 db1 ->
  fails_to_match req2 db2 ->
  fst (serve Up (login req1) db1) = fst (serve Up (login req2) db2) /\
  fst (serve Up (login req1) db1) =
    Ok {| body := PDict [("success", PBool false); ("message", PStr "Invalid credentials.")];
          status := 401 |}.
Proof.
  intros H1 H2.
  rewrite (login_no_match db1 req1 H1), (login_no_match db2 req2 H2). simpl. split; reflexivity.
Qed.

End LoginClaims.

Lemma login_success_iff_credentials_stored_witness :
  (serve Up (login (Sample.credentials "ravi@farm.example" "s3cret")) Sample.one_farmer
   = (Ok (welcome "ravi@farm.example"), Sample.one_farmer)
   <-> credentials_stored (Some "ravi@farm.example") (Some "s3cret") Sample.one_farmer) /\
  (~ credentials_stored (Some "ravi@farm.example") (Some "s3cret") Sample.one_farmer ->
   serve Up (login (Sample.credentials "ravi@farm.example" "s3cret")) Sample.one_farmer
   = (Ok invalid_credentials, Sample.one_farmer)).
Proof.
  exact (@login_success_iff_credentials_stored Exact.platform Sample.one_farmer
           (Sample.credentials "ravi@farm.example" "s3cret")
           (PDict [("email", PStr "ravi@farm.example"); ("password", PStr "s3cret")])
           (PStr "ravi@farm.example") (PStr "s3cret")
           (Some "ravi@farm.example") (Some "s3cret")
           eq_refl eq_refl eq_refl eq_refl eq_refl).
Defined.

(** On the sample database a wrong password for a stored email and an
    email that is not stored both fail to match. *)
Lemma sample_wrong_password :
  fails_to_match (Sample.credentials "ravi@farm.example" "guess") Sample.one_farmer.
Proof.
  exists (PDict [("email", PStr "ravi@farm.example"); ("password", PStr "guess")]),
    (PStr "ravi@farm.example"), (PStr "guess"), (Some "ravi@farm.example"), (Some "guess").
  repeat split; try reflexivity.
  intros [f [Hin [_ Hp]]]. simpl in Hin. destruct Hin as [Hf | []].
  subst f. discriminate Hp.
Qed.

Lemma sample_unknown_email :
  fails_to_match (Sample.credentials "nobody@farm.example" "s3cret") Sample.one_farmer.
Proof.
  exists (PDict [("email", PStr "nobody@farm.example"); ("password", PStr "s3cret")]),
    (PStr "nobody@farm.example"), (PStr "s3cret"),
    (Some "nobody@farm.example"), (Some "s3cret").
  repeat split; try reflexivity.
  intros [f [Hin [He _]]]. simpl in Hin. destruct Hin as [Hf | []].
  subst f. discriminate He.
Qed.

Lemma login_failures_identical_witness :
  fst (serve Up (login (Sample.credentials "ravi@farm.example" "guess")) Sample.one_farmer)
  = fst (serve Up (login (Sample.credentials "nobody@farm.example" "s3cret"))
               Sample.one_farmer) /\
  fst (serve Up (login (Sample.credentials "ravi@farm.example" "guess")) Sample.one_farmer)
  = Ok {| body := PDict [("success", PBool false); ("message", PStr "Invalid credentials.")];
          status := 401 |}.
Proof.
  exact (@login_failures_identical Exact.platform Sample.one_farmer Sample.one_farmer
           (Sample.credentials "ravi@farm.example" "guess")
           (Sample.credentials "nobody@farm.example" "s3cret")
           sample_wrong_password sample_unknown_email).
Defined.

(** ** Recommendation *)

(** Splits a goal on every outcome the view still waits for. *)
Ltac split_outcomes :=
  repeat match goal with
         | |- context [match ?r with Ok _ => _ | Raise _ => _ end] =>
             destruct r eqn:?; simpl
         | |- context [match ?o with Some _ => _ | None => _ end] =>
             destruct o eqn:?; simpl
         | |- context [match ?g with Up => _ | Down _ => _ end] =>
             destruct g eqn:?; simpl
         | |- context [let (_, _) := ?p in _] => destruct p eqn:?; simpl
         end.

(** Takes apart the equations [split_outcomes] leaves. *)
Ltac invert_outcomes :=
  repeat match goal with
         | H : result_bind ?r _ = _ |- _ => destruct r eqn:?; simpl in H
         | H : context [match ?g with Up => _ | Down _ => _ end] |- _ =>
             destruct g; simpl in H
         | H : Ok _ = Ok _ |- _ => inversion H; subst; clear H
         | H : Raise _ = Ok _ |- _ => discriminate H
         | H : Ok _ = Raise _ |- _ => discriminate H
         end.

Section RecommendationClaims.

Context {pf : Platform}.

(** When a step before the response raises, nothing was committed. *)
Lemma steps_raise_keep_store (eng : Engine) (m : Classifier) (req : Request)
    (db : Database) (e : exn) (s : Session) :
  crop_recommendation_steps_1_to_4 m req {| engine := eng; store := db; added := [] |}
  = (Raise e, s) ->
  store s = db.
Proof.
  unfold crop_recommendation_steps_1_to_4. run_view.
  split_outcomes; intros H; inversion H; subst; reflexivity.
Qed.

(** The [try] block is steps 1 to 4 and then the response. *)
Lemma try_block_after_steps (m : Classifier) (req : Request) (s0 : Session) :
  crop_recommendation_try m req s0 =
  match crop_recommendation_steps_1_to_4 m req s0 with
  | (Ok prediction, s) =>
      (jsonify [("success", PBool true);
                ("recommended_crop", prediction);
                ("model_accuracy", PFloat MODEL_ACCURACY);
                ("message", PStr "Crop recommended successfully!")], s)
  | (Raise e, s) => (Raise e, s)
  end.
Proof.
  unfold crop_recommendation_try, crop_recommendation_steps_1_to_4.
  unfold bind, lift, ret, db_session_add, db_session_commit. simpl.
  split_outcomes; reflexivity.
Qed.

Lemma steps_raise_500 (eng : Engine) (g : Globals) (m : Classifier) (req : Request)
    (db : Database) :
  model g = Some m ->
  raises_before_response eng m req db ->
  serve eng (crop_recommendation g req) db = (Ok error_processing_request, db).
Proof.
  intros Hm [e [s Hraise]].
  pose proof (steps_raise_keep_store eng m req db e s Hraise) as Hstore.
  unfold serve, crop_recommendation, try_except.
  rewrite Hm, try_block_after_steps, Hraise.
  unfold lift. simpl. rewrite Hstore. reflexivity.
Qed.

Lemma coercion_raises_before_response (eng : Engine) (m : Classifier) (req : Request)
    (db : Database) (k : string) :
  In k numeric_fields ->
  coercion_raises req k ->
  raises_before_response eng m req db.
Proof.
  intros Hin [e Hraise].
  unfold raises_before_response, crop_recommendation_steps_1_to_4, bind, lift.
  destruct (request_json req) as [data | e0]; simpl in *; [| eauto].
  destruct (float_item data "N") eqn:HN; simpl; [| eauto].
  destruct (float_item data "P") eqn:HP; simpl; [| eauto].
  destruct (float_item data "K") eqn:HK; simpl; [| eauto].
  destruct (float_item data "Temperature") eqn:HT; simpl; [| eauto].
  destruct (float_item data "Humidity") eqn:HH; simpl; [| eauto].
  destruct (float_item data "PH") eqn:HPH; simpl; [| eauto].
  destruct (float_item data "Rainfall") eqn:HR; simpl; [| eauto].
  exfalso.
  repeat (destruct Hin as [Hk | Hin]; [subst k; congruence |]).
  contradiction.
Qed.

(** What steps 1 to 4 have done when they return: one row is stored. *)
Lemma steps_return_stored (eng : Engine) (m : Classifier) (req : Request)
    (db : Database) (prediction : value) (s : Session) :
  crop_recommendation_steps_1_to_4 m req {| engine := eng; store := db; added := [] |}
  = (Ok prediction, s) ->
  exists (data farmer_email : value) (N P K T H PH R : float),
    request_json req = Ok data /\
    float_item data "N" = Ok N /\ float_item data "P" = Ok P /\
    float_item data "K" = Ok K /\ float_item data "Temperature" = Ok T /\
    float_item data "Humidity" = Ok H /\ float_item data "PH" = Ok PH /\
    float_item data "Rainfall" = Ok R /\
    py_getitem data "farmer_email" = Ok farmer_email /\
    result_bind (m [[N; P; K; T; H; PH; R]]) index0 = Ok prediction /\
    eng = Up /\
    insert (NewRecommendation farmer_email prediction N P K T H PH R) db = Ok (store s).
Proof.
  unfold crop_recommendation_steps_1_to_4. run_view.
  split_outcomes; intros Hrun; inversion Hrun; subst; clear Hrun; invert_outcomes.
  all: do 9 eexists; repeat split; try eassumption; try reflexivity.
  all: match goal with
       | H : ?r = Ok _ |- result_bind ?r index0 = _ => rewrite H; simpl; assumption
       end.
Qed.

End RecommendationClaims.

Section RecommendationTheorems.

Context {pf : Platform}.

(** A missing model file and a file that fails to unpickle both leave
    [model] unset. *)
Lemma load_model_failed (e : exn) :
  load_model None = None /\ load_model (Some (Raise e)) = None.
Proof. split; reflexivity. Qed.

Lemma model_unset_503 (g : Globals) (eng : Engine) (req : Request) (db : Database) :
  model g = None ->
  serve eng (crop_recommendation g req) db = (Ok model_not_loaded, db).
Proof.
  intros Hm. unfold serve, crop_recommendation. rewrite Hm. reflexivity.
Qed.

(** C2.  When the model was not loaded ([model] is [None]), every
    recommendation request, whatever its body and whatever state the engine
    is in, gets the 503 "ML Model is not loaded." response, and the database
    is the same afterwards: no row is added and none is changed. *)
Theorem recommendation_without_model_503
    (g : Globals) (eng : Engine) (req : Request) (db : Database) :
  model g = None ->
  serve eng (crop_recommendation g req) db = (Ok model_not_loaded, db).
Proof.
  intros Hm. exact (model_unset_503 g eng req db Hm).
Qed.

(** C4, as amended.  With the model loaded: when the coercion of one of
    the seven fields raises, or any step of the [try] block up to and with
    the commit raises, the view returns the 500 "Error processing request"
    response and the database is the same afterwards, so no recommendation
    row is created. *)
Theorem recommendation_error_500_no_row
    (g : Globals) (m : Classifier) (eng : Engine) (req : Request) (db : Database) :
  model g = Some m ->
  (exists k, In k numeric_fields /\ coercion_raises req k) \/
    raises_before_response eng m req db ->
  serve eng (crop_recommendation g req) db = (Ok error_processing_request, db).
Proof.
  intros Hm [[k [Hin Hraise]] | Hraise].
  - apply (steps_raise_500 eng g m req db Hm).
    exact (coercion_raises_before_response eng m req db k Hin Hraise).
  - exact (steps_raise_500 eng g m req db Hm Hraise).
Qed.


(** C8.  The recommendation route does not depend on the fallback
    function: two sets of globals with the same [model] answer every
    request alike, whatever their fallback is; and with [model] unset the
    answer is the 503 response, not a fallback prediction. *)
Theorem recommendation_ignores_fallback
    (g g' : Globals) (eng : Engine) (req : Request) (db : Database) :
  model g = model g' ->
  serve eng (crop_recommendation g req) db = serve eng (crop_recommendation g' req) db /\
  (model g = None ->
   serve eng (crop_recommendation g req) db = (Ok model_not_loaded, db)).
Proof.
  intros Hsame. split.
  - unfold crop_recommendation. rewrite Hsame. reflexivity.
  - intros Hm. exact (model_unset_503 g eng req db Hm).
Qed.

End RecommendationTheorems.

(** The example of the specification: the body
    [{N:120, P:10, K:10, Temperature:30, Humidity:50, PH:5, Rainfall:100}]
    with the model absent. *)
Lemma recommendation_without_model_503_witness :
  serve Up (crop_recommendation Sample.not_loaded (Sample.measurements (PInt 120)))
        Sample.one_farmer
  = (Ok model_not_loaded, Sample.one_farmer).
Proof.
  exact (@recommendation_without_model_503 Exact.platform Sample.not_loaded Up
           (Sample.measurements (PInt 120)) Sample.one_farmer eq_refl).
Defined.

(** The example of the specification: [N] is the string "abc". *)
Lemma recommendation_error_500_no_row_witness :
  serve Up (crop_recommendation (Sample.loaded (Sample.constant_classifier "Rice"))
                                (Sample.measurements (PStr "abc")))
        Sample.one_farmer
  = (Ok error_processing_request, Sample.one_farmer).
Proof.
  apply (@recommendation_error_500_no_row Exact.platform
           (Sample.loaded (Sample.constant_classifier "Rice"))
           (Sample.constant_classifier "Rice") Up
           (Sample.measurements (PStr "abc")) Sample.one_farmer).
  - reflexivity.
  - left. exists "N". split.
    + left. reflexivity.
    + eexists. reflexivity.
Defined.



(** The claim C4 as it was stated fails when the step that raises comes
    after the commit: with [numpy.int64] labels the row is stored, then
    [jsonify] raises inside the [try] block, and the view answers 500 with
    the row in the table. *)
Lemma recommendation_500_after_commit_counterexample :
  let g := Sample.loaded Sample.int64_classifier in
  let req := Sample.measurements (PInt 120) in
  model g = Some Sample.int64_classifier /\
  try_block_raises Up Sample.int64_classifier req Sample.one_farmer /\
  fst (serve Up (crop_recommendation g req) Sample.one_farmer)
    = Ok error_processing_request /\
  map r_id (recommendations (snd (serve Up (crop_recommendation g req) Sample.one_farmer)))
    = [1] /\
  snd (serve Up (crop_recommendation g req) Sample.one_farmer) <> Sample.one_farmer.
Proof.
  cbv zeta. split; [reflexivity |]. split.
  - unfold try_block_raises.
    destruct (crop_recommendation_try Sample.int64_classifier
                (Sample.measurements (PInt 120))
                {| engine := Up; store := Sample.one_farmer; added := [] |})
      as [[r | e] s] eqn:Hrun.
    + vm_compute in Hrun. discriminate Hrun.
    + exists e, s. reflexivity.
  - split; [reflexivity |]. split; [reflexivity |].
    intros H. apply (f_equal (fun db => List.length (recommendations db))) in H.
    discriminate H.
Qed.

(** On the measurements of the specification's example the fallback would
    answer "Cotton". *)
Example predict_crop_mock_sample :
  @predict_crop_mock Exact.platform
    [inject_Z 120; inject_Z 10; inject_Z 10; inject_Z 30; inject_Z 50; inject_Z 5;
     inject_Z 100]
  = Ok "Cotton".
Proof. reflexivity. Qed.

Lemma recommendation_ignores_fallback_witness :
  let g' : @Globals Exact.platform := {| model := None; fallback := fun _ => Ok "Maize" |} in
  serve Up (crop_recommendation Sample.not_loaded (Sample.measurements (PInt 120)))
        Sample.one_farmer
  = serve Up (crop_recommendation g' (Sample.measurements (PInt 120))) Sample.one_farmer /\
  (model Sample.not_loaded = None ->
   serve Up (crop_recommendation Sample.not_loaded (Sample.measurements (PInt 120)))
         Sample.one_farmer
   = (Ok model_not_loaded, Sample.one_farmer)).
Proof.
  exact (@recommendation_ignores_fallback Exact.platform Sample.not_loaded
           {| model := None; fallback := fun _ => Ok "Maize" |} Up
           (Sample.measurements (PInt 120)) Sample.one_farmer eq_refl).
Defined.

(** ** Admin dump *)

Section AdminClaims.

Context {pf : Platform}.

Lemma insert_desc_permutation (r : CropRecommendation) (l : list CropRecommendation) :
  Permutation (insert_desc r l) (r :: l).
Proof.
  induction l as [| x rest IH]; simpl.
  - apply Permutation_refl.
  - destruct (r_id x <=? r_id r).
    + apply Permutation_refl.
    + apply perm_trans with (x :: r :: rest).
      * apply perm_skip. exact IH.
      * apply perm_swap.
Qed.

Lemma order_by_id_desc_permutation (l : list CropRecommendation) :
  Permutation (order_by_id_desc l) l.
Proof.
  unfold order_by_id_desc. induction l as [| x rest IH]; simpl.
  - apply perm_nil.
  - apply perm_trans with (x :: fold_right insert_desc [] rest).
    + apply insert_desc_permutation.
    + apply perm_skip. exact IH.
Qed.



Lemma forallb_permutation {A : Type} (f : A -> bool) (l l' : list A) :
  Permutation l l' -> forallb f l = forallb f l'.
Proof.
  induction 1 as [| x l l' _ IH | x y l | l l' l'' _ IH1 _ IH2]; simpl.
  - reflexivity.
  - rewrite IH. reflexivity.
  - destruct (f x), (f y); reflexivity.
  - rewrite IH1. exact IH2.
Qed.

Lemma farmer_entries_serializable (fs : list Farmer) :
  forallb serializable (map farmer_entry fs) = true.
Proof. induction fs as [| f fs IH]; simpl; [reflexivity | exact IH]. Qed.

Lemma recommendation_entries_serializable (rs : list CropRecommendation) :
  forallb serializable (map recommendation_entry rs)
  = forallb (fun r => is_text (r_crop_name r)) rs.
Proof.
  induction rs as [| r rs IH]; simpl; [reflexivity |]. rewrite IH.
  destruct (r_crop_name r), (r_N r), (r_P r), (r_K r), (r_Temperature r),
    (r_Humidity r), (r_PH r), (r_Rainfall r); reflexivity.
Qed.

Lemma crop_names_are_text_forallb (db : Database) :
  crop_names_are_text db <->
  forallb (fun r => is_text (r_crop_name r)) (recommendations db) = true.
Proof.
  unfold crop_names_are_text. rewrite forallb_forall. split.
  - intros Htext r Hin. destruct (Htext r Hin) as [s Hs]. rewrite Hs. reflexivity.
  - intros Htext r Hin. specialize (Htext r Hin).
    destruct (r_crop_name r) as [s | b]; [exists s; reflexivity | discriminate Htext].
Qed.

(** What [admin_data] answers when its queries are served. *)
Lemma admin_data_served (db : Database) :
  serve Up admin_data db =
    (Ok (if forallb (fun r => is_text (r_crop_name r)) (recommendations db)
         then admin_document (farmers db) (order_by_id_desc (recommendations db))
         else not_serializable),
     db).
Proof.
  run_view. unfold jsonify. simpl.
  rewrite farmer_entries_serializable, recommendation_entries_serializable. simpl.
  rewrite (forallb_permutation _ _ _ (order_by_id_desc_permutation (recommendations db))).
  destruct (forallb (fun r => is_text (r_crop_name r)) (recommendations db)); reflexivity.
Qed.



(** Every 500 response of the recommendation route is the fixed one. *)
Lemma recommendation_500_is_fixed (g : Globals) (eng : Engine) (req : Request)
    (db db' : Database) (r : Response) :
  serve eng (crop_recommendation g req) db = (Ok r, db') ->
  status r = 500 ->
  r = error_processing_request.
Proof.
  unfold serve, crop_recommendation, try_except.
  destruct (model g) as [m |]; simpl.
  - rewrite try_block_after_steps.
    destruct (crop_recommendation_steps_1_to_4 m req
                {| engine := eng; store := db; added := [] |}) as [[v | e] s].
    + unfold jsonify.
      destruct (serializable _); unfold lift; simpl; intros Hrun; inversion Hrun; subst.
      * intros Hs. discriminate Hs.
      * reflexivity.
    + unfold lift. simpl. intros Hrun. inversion Hrun; subst. reflexivity.
  - unfold lift. simpl. intros Hrun. inversion Hrun; subst. intros Hs. discriminate Hs.
Qed.

(** What [admin_data] answers when a query raises [e]: status 500 with
    [str(e)] as the message. *)
Lemma admin_data_engine_down (e : exn) (db : Database) :
  serve (Down e) admin_data db =
    (Ok {| body := PDict [("success", PBool false); ("message", PStr (str_exn e))];
           status := 500 |},
     db).
Proof. reflexivity. Qed.

End AdminClaims.




(** The dump of the sample, written out. *)
Example admin_data_sample_dump :
  fst (serve Up admin_data Sample.two_recommendations)
  = Ok {| body :=
            PDict [("success", PBool true);
                   ("farmers",
                    PList [PDict [("id", PInt 1); ("email", PStr "ravi@farm.example")]]);
                   ("recommendations",
                    PList [PDict [("id", PInt 2);
                                  ("farmer_email", PStr "ravi@farm.example");
                                  ("crop_name", PStr "Maize");
                                  ("N", PFloat (inject_Z 20)); ("P", PFloat (inject_Z 30));
                                  ("K", PFloat (inject_Z 40));
                                  ("Temperature", PFloat (inject_Z 22));
                                  ("Humidity", PFloat (inject_Z 60));
                                  ("PH", PFloat (inject_Z 7));
                                  ("Rainfall", PFloat (inject_Z 80))];
                           PDict [("id", PInt 1);
                                  ("farmer_email", PStr "ravi@farm.example");
                                  ("crop_name", PStr "Rice");
                                  ("N", PFloat (inject_Z 120)); ("P", PFloat (inject_Z 10));
                                  ("K", PFloat (inject_Z 10));
                                  ("Temperature", PFloat (inject_Z 30));
                                  ("Humidity", PFloat (inject_Z 50));
                                  ("PH", PFloat (inject_Z 5));
                                  ("Rainfall", PFloat (inject_Z 100))]])];
          status := 200 |}.
Proof. reflexivity. Qed.

(** On the sample the dump lists id 2 before id 1. *)
Example admin_data_sample_order :
  map r_id (order_by_id_desc (recommendations Sample.two_recommendations)) = [2; 1].
Proof. reflexivity. Qed.

(** C9, where the code departs from it.  While the engine cannot open the
    database file, [admin_data] answers 500 with the text of the caught
    exception as its message, and another failure gives another message;
    [crop_recommendation] under the same failure answers with its fixed
    message. *)
Theorem admin_data_500_carries_exception_text :
  serve (Down Sample.file_unreadable) admin_data Sample.one_farmer
  = (Ok {| body := PDict [("success", PBool false);
                          ("message",
                           PStr "(sqlite3.OperationalError) unable to open database file")];
           status := 500 |},
     Sample.one_farmer) /\
  serve (Down (Exception "OperationalError" "(sqlite3.OperationalError) no such table: farmer"))
        admin_data Sample.one_farmer
  = (Ok {| body := PDict [("success", PBool false);
                          ("message",
                           PStr "(sqlite3.OperationalError) no such table: farmer")];
           status := 500 |},
     Sample.one_farmer) /\
  serve (Down Sample.file_unreadable)
        (crop_recommendation (Sample.loaded (Sample.constant_classifier "Rice"))
                             (Sample.measurements (PInt 120)))
        Sample.one_farmer
  = (Ok error_processing_request, Sample.one_farmer).
Proof. repeat split. Qed.

(** ** Invariants *)

Section Invariants.

Context {pf : Platform}.

Lemma serve_committed (eng : Engine) (g : Globals) (c : Call) (db : Database) :
  committed db (snd (serve eng (view_of g c) db)).
Proof.
  destruct c as [req | req | req |]; simpl;
    run_view; split_outcomes; try (left; reflexivity); invert_outcomes;
    try (left; reflexivity); try (right; eexists; eassumption).
Qed.

Lemma fold_max_upper (rest : list Z) (i j : Z) :
  In j (i :: rest) -> j <= fold_right Z.max i rest.
Proof.
  induction rest as [| x rest IH]; intros Hin.
  - destruct Hin as [Heq | []]. simpl. lia.
  - change (fold_right Z.max i (x :: rest)) with (Z.max x (fold_right Z.max i rest)).
    destruct Hin as [Heq | [Heq | Hin]].
    + apply Z.le_trans with (fold_right Z.max i rest); [| apply Z.le_max_r].
      apply IH. left. exact Heq.
    + subst j. apply Z.le_max_l.
    + apply Z.le_trans with (fold_right Z.max i rest); [| apply Z.le_max_r].
      apply IH. right. exact Hin.
Qed.

(** The next rowid is not in use. *)
Lemma next_rowid_fresh (ids : list Z) : ~ In (next_rowid ids) ids.
Proof.
  unfold next_rowid. destruct ids as [| i rest]; [intros [] |].
  intros Hin. apply fold_max_upper in Hin. lia.
Qed.

Lemma NoDup_snoc {A : Type} (l : list A) (a : A) :
  NoDup l -> ~ In a l -> NoDup (l ++ [a]).
Proof.
  intros Hl Ha. apply (Permutation_NoDup (Permutation_cons_append l a)).
  constructor; assumption.
Qed.

Lemma committed_emails_unique (db db' : Database) :
  committed db db' -> NoDup (emails db) -> NoDup (emails db').
Proof.
  intros [Hsame | [o Hins]] Hunique.
  - rewrite Hsame. exact Hunique.
  - unfold insert in Hins. destruct o as [email password | email crop N P K T H PH R].
    + destruct (bind_text email) as [[e |] |]; simpl in Hins;
        destruct (bind_text password) as [[p |] |]; simpl in Hins;
        try discriminate Hins.
      destruct (email_taken e db) eqn:Htaken; try discriminate Hins.
      inversion Hins; subst. unfold emails. simpl. rewrite map_app. simpl.
      apply NoDup_snoc; [exact Hunique |]. apply email_taken_false. exact Htaken.
    + destruct (bind_text email) as [[e |] |]; simpl in Hins;
        destruct (bind_crop_name crop) as [[c |] |]; simpl in Hins;
        try discriminate Hins.
      inversion Hins; subst. exact Hunique.
Qed.

Lemma committed_ids_distinct (db db' : Database) :
  committed db db' ->
  NoDup (map r_id (recommendations db)) ->
  NoDup (map r_id (recommendations db')).
Proof.
  intros [Hsame | [o Hins]] Hkey.
  - rewrite Hsame. exact Hkey.
  - unfold insert in Hins. destruct o as [email password | email crop N P K T H PH R].
    + destruct (bind_text email) as [[e |] |]; simpl in Hins;
        destruct (bind_text password) as [[p |] |]; simpl in Hins;
        try discriminate Hins.
      destruct (email_taken e db) eqn:Htaken; try discriminate Hins.
      inversion Hins; subst. exact Hkey.
    + destruct (bind_text email) as [[e |] |]; simpl in Hins;
        destruct (bind_crop_name crop) as [[c |] |]; simpl in Hins;
        try discriminate Hins.
      inversion Hins; subst. simpl. rewrite map_app. simpl.
      apply NoDup_snoc; [exact Hkey | apply next_rowid_fresh].
Qed.

Lemma run_calls_emails_unique (g : Globals) (calls : list (Engine * Call)) (db : Database) :
  NoDup (emails db) -> NoDup (emails (run_calls g calls db)).
Proof.
  unfold run_calls. revert db.
  induction calls as [| [eng c] calls IH]; simpl; intros db Hunique.
  - exact Hunique.
  - apply IH. exact (committed_emails_unique _ _ (serve_committed eng g c db) Hunique).
Qed.

(** The primary key of the recommendations stays a key: in every database
    the views build from the empty one, the ids are distinct. *)
Lemma run_calls_ids_distinct (g : Globals) (calls : list (Engine * Call)) (db : Database) :
  NoDup (map r_id (recommendations db)) ->
  NoDup (map r_id (recommendations (run_calls g calls db))).
Proof.
  unfold run_calls. revert db.
  induction calls as [| [eng c] calls IH]; simpl; intros db Hkey.
  - exact Hkey.
  - apply IH. exact (committed_ids_distinct _ _ (serve_committed eng g c db) Hkey).
Qed.

(** Both keys hold in every database the views build from the empty one. *)
Lemma reachable_keys (g : Globals) (calls : list (Engine * Call)) :
  NoDup (emails (run_calls g calls no_rows)) /\
  NoDup (map r_id (recommendations (run_calls g calls no_rows))).
Proof.
  split.
  - apply run_calls_emails_unique. constructor.
  - apply run_calls_ids_distinct. constructor.
Qed.

End Invariants.

(** C7.  Uniqueness of [Farmer.email] is preserved: from any database in
    which no two farmers share an email, after any sequence of register,
    login, recommendation and admin calls (in any state of the engine, with
    any model), no two farmers share an email.  Nothing of the kind ties a
    recommendation to a farmer: one recommendation call on the empty
    database stores a row whose [farmer_email] is no farmer's email. *)
Theorem farmer_email_unique_invariant :
  (forall (pf : Platform) (g : Globals) (calls : list (Engine * Call)) (db : Database),
     NoDup (emails db) -> NoDup (emails (run_calls g calls db))) /\
  (exists r : @CropRecommendation Exact.platform,
     dangling r (run_calls (Sample.loaded (Sample.constant_classifier "Rice"))
                           Sample.only_a_recommendation Sample.empty_db)).
Proof.
  split.
  - intros pf g calls db. apply run_calls_emails_unique.
  - eexists. split.
    + simpl. left. reflexivity.
    + simpl. intros [].
Qed.

Lemma farmer_email_unique_invariant_witness :
  NoDup (emails (run_calls (Sample.loaded (Sample.constant_classifier "Rice"))
                           [(Up, CallRegister (Sample.credentials "asha@farm.example" "monsoon"));
                            (Up, CallRegister (Sample.credentials "asha@farm.example" "again"));
                            (Up, CallLogin (Sample.credentials "asha@farm.example" "monsoon"));
                            (Up, CallCropRecommendation (Sample.measurements (PInt 120)));
                            (Down Sample.file_unreadable, CallAdminData)]
                           Sample.one_farmer)).
Proof.
  apply (proj1 farmer_email_unique_invariant Exact.platform).
  vm_compute. constructor; [intros [] | constructor].
Defined.

(** * Further properties of the views *)

(** ** What each view can do to the database *)

Section Outcomes.

Context {pf : Platform}.

(** X1.  [login] only reads: whatever the request and whatever state the
    engine is in, also when the view raises, the database is the same
    afterwards. *)
Theorem login_never_writes (eng : Engine) (req : Request) (db : Database) :
  snd (serve eng (login req) db) = db.
Proof.
  run_view. split_outcomes; reflexivity.
Qed.

(** X2.  [admin_data] never raises and only reads: it answers 200 or 500
    and the database is the same afterwards; it answers 200 exactly when
    the engine is up and every stored [crop_name] is text. *)
Theorem admin_data_answers_and_reads_only (eng : Engine) (db : Database) :
  exists r : Response,
    serve eng admin_data db = (Ok r, db) /\
    (status r = 200 \/ status r = 500) /\
    (status r = 200 <-> eng = Up /\ crop_names_are_text db).
Proof.
  destruct eng as [| e].
  - rewrite admin_data_served.
    destruct (forallb (fun r => is_text (r_crop_name r)) (recommendations db)) eqn:Htext;
      eexists; (split; [reflexivity |]); simpl.
    + split; [left; reflexivity |]. split; [| reflexivity].
      intros _. split; [reflexivity |]. apply crop_names_are_text_forallb. exact Htext.
    + split; [right; reflexivity |]. split.
      * intros Hs. discriminate Hs.
      * intros [_ Hall]. apply crop_names_are_text_forallb in Hall.
        rewrite Hall in Htext. discriminate Htext.
  - eexists. split; [reflexivity |]. simpl. split; [right; reflexivity |]. split.
    + intros Hs. discriminate Hs.
    + intros [Hup _]. discriminate Hup.
Qed.

Lemma insert_recommendation_inv (db db' : Database) (email crop : value)
    (N P K T H PH R : float) :
  insert (NewRecommendation email crop N P K T H PH R) db = Ok db' ->
  exists (e : string) (c : sqltext),
    bind_text email = Ok (Some e) /\
    bind_crop_name crop = Ok (Some c) /\
    db' = {| farmers := farmers db;
             recommendations := recommendations db ++
               [{| r_id := next_rowid (map r_id (recommendations db));
                   r_farmer_email := e; r_crop_name := c;
                   r_N := sql_float N; r_P := sql_float P; r_K := sql_float K;
                   r_Temperature := sql_float T; r_Humidity := sql_float H;
                   r_PH := sql_float PH; r_Rainfall := sql_float R |}] |}.
Proof.
  unfold insert.
  destruct (bind_text email) as [[e |] | x]; simpl;
    destruct (bind_crop_name crop) as [[c |] | y]; simpl; intros Hins;
    try discriminate Hins.
  inversion Hins; subst. exists e, c. repeat split.
Qed.

Lemma insert_farmer_inv (db db' : Database) (email password : value) :
  insert (NewFarmer email password) db = Ok db' ->
  exists e p, bind_text email = Ok (Some e) /\ bind_text password = Ok (Some p) /\
              ~ In e (emails db) /\ db' = with_farmer db e p.
Proof.
  unfold insert.
  destruct (bind_text email) as [[e |] | x]; simpl;
    destruct (bind_text password) as [[p |] | y]; simpl; intros Hins;
    try discriminate Hins.
  destruct (email_taken e db) eqn:Htaken; try discriminate Hins.
  inversion Hins; subst. exists e, p.
  repeat split; try reflexivity. apply email_taken_false. exact Htaken.
Qed.

(** With a model loaded: either a step before the response raised and
    nothing is stored, or one row is stored and the answer depends on
    whether the label can go into the response. *)
Lemma recommendation_loaded_cases (g : Globals) (m : Classifier) (eng : Engine)
    (req : Request) (db : Database) :
  model g = Some m ->
  serve eng (crop_recommendation g req) db = (Ok error_processing_request, db) \/
  exists (prediction : value) (row : CropRecommendation),
    bind_crop_name prediction = Ok (Some (r_crop_name row)) /\
    r_id row = next_rowid (map r_id (recommendations db)) /\
    serve eng (crop_recommendation g req) db =
      (Ok (if serializable prediction
           then {| body := PDict [("success", PBool true);
                                  ("recommended_crop", prediction);
                                  ("model_accuracy", PFloat MODEL_ACCURACY);
                                  ("message", PStr "Crop recommended successfully!")];
                   status := 200 |}
           else error_processing_request),
       {| farmers := farmers db;
          recommendations := recommendations db ++ [row] |}).
Proof.
  intros Hm.
  destruct (crop_recommendation_steps_1_to_4 m req
              {| engine := eng; store := db; added := [] |}) as [[v | x] s] eqn:Hsteps.
  - right.
    destruct (steps_return_stored eng m req db v s Hsteps)
      as [data [email [N [P [K [T [H [PH [R Hall]]]]]]]]].
    destruct Hall as [_ [_ [_ [_ [_ [_ [_ [_ [_ [_ [_ Hins]]]]]]]]]]].
    apply insert_recommendation_inv in Hins.
    destruct Hins as [e [c [_ [Hcrop Hdb]]]].
    exists v, {| r_id := next_rowid (map r_id (recommendations db));
                 r_farmer_email := e; r_crop_name := c;
                 r_N := sql_float N; r_P := sql_float P; r_K := sql_float K;
                 r_Temperature := sql_float T; r_Humidity := sql_float H;
                 r_PH := sql_float PH; r_Rainfall := sql_float R |}.
    split; [exact Hcrop |]. split; [reflexivity |].
    unfold serve, crop_recommendation, try_except.
    rewrite Hm, try_block_after_steps, Hsteps. unfold jsonify, lift. simpl.
    rewrite Bool.andb_true_r. rewrite <- Hdb.
    destruct (serializable v); reflexivity.
  - left. apply (steps_raise_500 eng g m req db Hm). exists x, s. exact Hsteps.
Qed.

(** X3.  [crop_recommendation] never raises, and has four outcomes: 503
    with the database untouched when no model is loaded; otherwise 500 with
    the database untouched, or exactly one recommendation row appended
    under the next free id, the farmers untouched, and then 200 with the
    predicted label when the label can go into a JSON document, and 500
    when it cannot. *)
Theorem recommendation_outcomes (g : Globals) (eng : Engine) (req : Request)
    (db : Database) :
  (model g = None /\
   serve eng (crop_recommendation g req) db = (Ok model_not_loaded, db)) \/
  (model g <> None /\
   serve eng (crop_recommendation g req) db = (Ok error_processing_request, db)) \/
  (model g <> None /\
   exists (prediction : value) (row : CropRecommendation),
     serializable prediction = true /\
     serve eng (crop_recommendation g req) db =
       (Ok {| body := PDict [("success", PBool true);
                             ("recommended_crop", prediction);
                             ("model_accuracy", PFloat (float_literal 9932 (-2)));
                             ("message", PStr "Crop recommended successfully!")];
              status := 200 |},
        {| farmers := farmers db;
           recommendations := recommendations db ++ [row] |}) /\
     bind_crop_name prediction = Ok (Some (r_crop_name row)) /\
     r_id row = next_rowid (map r_id (recommendations db))) \/
  (model g <> None /\
   exists (prediction : value) (row : CropRecommendation),
     serializable prediction = false /\
     serve eng (crop_recommendation g req) db =
       (Ok error_processing_request,
        {| farmers := farmers db;
           recommendations := recommendations db ++ [row] |}) /\
     bind_crop_name prediction = Ok (Some (r_crop_name row)) /\
     r_id row = next_rowid (map r_id (recommendations db))).
Proof.
  destruct (model g) as [m |] eqn:Hm.
  - right.
    destruct (recommendation_loaded_cases g m eng req db Hm)
      as [Herr | [v [row [Hcrop [Hid Hrun]]]]].
    + left. split; [discriminate | exact Herr].
    + right. destruct (serializable v) eqn:Hv.
      * left. split; [discriminate |]. exists v, row. repeat split; assumption.
      * right. split; [discriminate |]. exists v, row. repeat split; assumption.
  - left. split; [reflexivity | exact (model_unset_503 g eng req db Hm)].
Qed.

(** X4.  Whether the route is available is decided when the model file is
    read: a recommendation request is answered 503 exactly when the file
    was missing, failed to unpickle, or held [None], whatever the
    request. *)
Theorem unavailable_iff_load_failed (file : option (result (option Classifier)))
    (eng : Engine) (req : Request) (db : Database) :
  exists (r : Response) (db' : Database),
    serve eng (crop_recommendation (app_globals file) req) db = (Ok r, db') /\
    (status r = 503 <-> load_failed file).
Proof.
  unfold load_failed. destruct file as [[[m |] | e] |].
  - destruct (recommendation_loaded_cases (app_globals (Some (Ok (Some m)))) m eng req db
                eq_refl) as [Herr | [v [row [_ [_ Hrun]]]]].
    + do 2 eexists. split; [exact Herr |]. split.
      * intros Hs. discriminate Hs.
      * intros [Hnone | [[x Hx] | Hnone]]; discriminate.
    + do 2 eexists. split; [exact Hrun |]. split.
      * destruct (serializable v); intros Hs; discriminate Hs.
      * intros [Hnone | [[x Hx] | Hnone]]; discriminate.
  - do 2 eexists. split; [reflexivity |]. split.
    + intros _. right. right. reflexivity.
    + intros _. reflexivity.
  - do 2 eexists. split; [reflexivity |]. split.
    + intros _. right. left. exists e. reflexivity.
    + intros _. reflexivity.
  - do 2 eexists. split; [reflexivity |]. split.
    + intros _. left. reflexivity.
    + intros _. reflexivity.
Qed.

(** X5.  [register] has three outcomes: the 400 response with the database
    untouched; success with exactly one farmer appended, whose email was not
    stored before, and the recommendations untouched; or an exception it
    does not catch, with the database untouched. *)
Theorem register_outcomes (eng : Engine) (req : Request) (db : Database) :
  serve eng (register req) db = (Ok email_already_registered, db) \/
  (exists e p : string,
     ~ In e (emails db) /\
     serve eng (register req) db = (Ok registration_successful, with_farmer db e p) /\
     recommendations (with_farmer db e p) = recommendations db) \/
  (exists x : exn, serve eng (register req) db = (Raise x, db)).
Proof.
  run_view. split_outcomes; invert_outcomes;
    try (left; reflexivity); try (right; right; eexists; reflexivity).
  all: match goal with
       | H : insert (NewFarmer _ _) _ = Ok _ |- _ =>
           apply insert_farmer_inv in H;
           destruct H as [e [p [_ [_ [Hfresh Hdb]]]]]; subst
       end.
  all: right; left; exists e, p; repeat split; assumption.
Qed.

End Outcomes.

(** ** Missing fields and a failing engine *)

Section EdgeCases.

Context {pf : Platform}.

Lemma no_credentials_with_null (oe op : option string) (db : Database) :
  oe = None \/ op = None -> ~ credentials_stored oe op db.
Proof.
  intros [Hnull | Hnull] [f [_ [He Hp]]]; subst; discriminate.
Qed.

(** X6.  [register] does not validate its input: served with the engine
    up, a body without an email (or with a null one), or with an email that
    is not stored and no password, makes the view raise an [IntegrityError]
    that it does not catch, and nothing is stored. *)
Theorem register_missing_field_raises
    (db : Database) (req : Request) (data ve vp : value) (oe op : option string) :
  request_json req = Ok data ->
  py_get data "email" = Ok ve ->
  py_get data "password" = Ok vp ->
  bind_text ve = Ok oe ->
  bind_text vp = Ok op ->
  oe = None \/ (exists e, oe = Some e /\ ~ In e (emails db) /\ op = None) ->
  exists x : exn,
    serve Up (register req) db = (Raise x, db) /\ exn_class x = "IntegrityError".
Proof.
  intros Hjson Hemail Hpass He Hp Hmissing.
  run_view. rewrite Hjson, Hemail, Hpass. simpl. rewrite He. simpl.
  destruct Hmissing as [Hnull | [e [Hsome [Hfresh Hnull]]]]; subst.
  - rewrite find_null_email. simpl. unfold insert. rewrite He, Hp. simpl.
    destruct op; eexists; split; reflexivity.
  - rewrite (find_email_none e (farmers db) Hfresh). simpl.
    unfold insert. rewrite He, Hp. simpl. eexists. split; reflexivity.
Qed.

(** X7.  [login] answers a body without an email or without a password
    (missing or null) with the 401 response, whatever is stored. *)
Theorem login_missing_field_401
    (db : Database) (req : Request) (data ve vp : value) (oe op : option string) :
  request_json req = Ok data ->
  py_get data "email" = Ok ve ->
  py_get data "password" = Ok vp ->
  bind_text ve = Ok oe ->
  bind_text vp = Ok op ->
  oe = None \/ op = None ->
  serve Up (login req) db = (Ok invalid_credentials, db).
Proof.
  intros Hjson Hemail Hpass He Hp Hnull. apply login_no_match.
  exists data, ve, vp, oe, op. repeat split; try assumption.
  apply no_credentials_with_null. exact Hnull.
Qed.

(** X8.  [register] and [login] have no [try]: when the engine is down,
    the exception their first query raises leaves the view uncaught, and
    nothing is stored. *)
Theorem engine_down_is_not_caught
    (x : exn) (req : Request) (data ve vp : value) (db : Database) :
  request_json req = Ok data ->
  py_get data "email" = Ok ve ->
  py_get data "password" = Ok vp ->
  serve (Down x) (register req) db = (Raise x, db) /\
  serve (Down x) (login req) db = (Raise x, db).
Proof.
  intros Hjson Hemail Hpass. split; run_view; rewrite Hjson, Hemail, Hpass; reflexivity.
Qed.

(** X9.  A recommendation request whose [farmer_email] is missing or null
    never stores a row: with a model loaded the answer is the 500 response,
    whatever the other fields, the prediction and the engine are. *)
Theorem recommendation_without_email_500
    (g : Globals) (m : Classifier) (eng : Engine) (req : Request) (data : value)
    (db : Database) :
  model g = Some m ->
  request_json req = Ok data ->
  py_getitem data "farmer_email" = Ok PNone \/
    (exists x, py_getitem data "farmer_email" = Raise x) ->
  serve eng (crop_recommendation g req) db = (Ok error_processing_request, db).
Proof.
  intros Hm Hjson Hemail. apply (steps_raise_500 eng g m req db Hm).
  unfold raises_before_response, crop_recommendation_steps_1_to_4, bind, lift.
  rewrite Hjson. simpl.
  destruct (float_item data "N"); simpl; [| eauto].
  destruct (float_item data "P"); simpl; [| eauto].
  destruct (float_item data "K"); simpl; [| eauto].
  destruct (float_item data "Temperature"); simpl; [| eauto].
  destruct (float_item data "Humidity"); simpl; [| eauto].
  destruct (float_item data "PH"); simpl; [| eauto].
  destruct (float_item data "Rainfall"); simpl; [| eauto].
  destruct Hemail as [Hnull | [x Hmissing]].
  - rewrite Hnull. simpl.
    match goal with
    | |- context [result_bind ?r index0] => destruct (result_bind r index0); simpl; [| eauto]
    end.
    unfold db_session_add, db_session_commit, engine_check, ret. simpl.
    destruct eng; simpl; [| eauto].
    unfold insert. rewrite bind_text_none. simpl.
    match goal with
    | |- context [bind_crop_name ?v] => destruct (bind_crop_name v) as [[c |] | y]
    end; simpl; eauto.
  - rewrite Hmissing. simpl. eauto.
Qed.

End EdgeCases.

Lemma register_missing_field_raises_witness :
  exists x : exn,
    serve Up (register (MoreSamples.email_only "asha@farm.example")) Sample.one_farmer
    = (Raise x, Sample.one_farmer) /\ exn_class x = "IntegrityError".
Proof.
  apply (@register_missing_field_raises Exact.platform Sample.one_farmer
           (MoreSamples.email_only "asha@farm.example")
           (PDict [("email", PStr "asha@farm.example")])
           (PStr "asha@farm.example") PNone (Some "asha@farm.example") None
           eq_refl eq_refl eq_refl eq_refl eq_refl).
  right. exists "asha@farm.example". repeat split.
  simpl. intros [H | []]. discriminate H.
Defined.

Lemma login_missing_field_401_witness :
  serve Up (login (MoreSamples.email_only "ravi@farm.example")) Sample.one_farmer
  = (Ok invalid_credentials, Sample.one_farmer).
Proof.
  exact (@login_missing_field_401 Exact.platform Sample.one_farmer
           (MoreSamples.email_only "ravi@farm.example")
           (PDict [("email", PStr "ravi@farm.example")])
           (PStr "ravi@farm.example") PNone (Some "ravi@farm.example") None
           eq_refl eq_refl eq_refl eq_refl eq_refl (or_intror eq_refl)).
Defined.

Lemma engine_down_is_not_caught_witness :
  serve (Down Sample.file_unreadable)
        (register (Sample.credentials "asha@farm.example" "monsoon")) Sample.one_farmer
  = (Raise Sample.file_unreadable, Sample.one_farmer) /\
  serve (Down Sample.file_unreadable)
        (login (Sample.credentials "asha@farm.example" "monsoon")) Sample.one_farmer
  = (Raise Sample.file_unreadable, Sample.one_farmer).
Proof.
  exact (@engine_down_is_not_caught Exact.platform Sample.file_unreadable
           (Sample.credentials "asha@farm.example" "monsoon")
           (PDict [("email", PStr "asha@farm.example"); ("password", PStr "monsoon")])
           (PStr "asha@farm.example") (PStr "monsoon") Sample.one_farmer
           eq_refl eq_refl eq_refl).
Defined.

Lemma recommendation_without_email_500_witness :
  serve Up (crop_recommendation (Sample.loaded (Sample.constant_classifier "Rice"))
                                MoreSamples.measurements_null_email)
        Sample.one_farmer
  = (Ok error_processing_request, Sample.one_farmer).
Proof.
  exact (@recommendation_without_email_500 Exact.platform
           (Sample.loaded (Sample.constant_classifier "Rice"))
           (Sample.constant_classifier "Rice") Up
           MoreSamples.measurements_null_email
           (PDict [("N", PInt 120); ("P", PInt 10); ("K", PInt 10);
                   ("Temperature", PInt 30); ("Humidity", PInt 50); ("PH", PInt 5);
                   ("Rainfall", PInt 100); ("farmer_email", PNone)])
           Sample.one_farmer eq_refl eq_refl (or_introl eq_refl)).
Defined.

(** ** Registering, then logging in *)

Section RoundTrip.

Context {pf : Platform}.

Lemma credentials_after_register (db : Database) (e p p' : string) :
  ~ In e (emails db) ->
  credentials_stored (Some e) (Some p') (with_farmer db e p) <-> p' = p.
Proof.
  intros Hfresh. split.
  - intros [f [Hin [He Hp]]]. unfold with_farmer in Hin. simpl in Hin.
    apply in_app_or in Hin. destruct Hin as [Hold | [Hnew | []]].
    + exfalso. apply Hfresh. inversion He as [Hemail]. subst e.
      unfold emails. apply in_map. exact Hold.
    + subst f. simpl in Hp. inversion Hp. reflexivity.
  - intros Heq. subst p'.
    exists {| f_id := next_rowid (map f_id (farmers db)); f_email := e; f_password := p |}.
    split; [| split; reflexivity].
    unfold with_farmer. simpl. apply in_or_app. right. left. reflexivity.
Qed.

Lemma login_after_register (db : Database) (e p p' : string) (lreq : Request)
    (ldata : value) :
  ~ In e (emails db) ->
  request_json lreq = Ok ldata ->
  py_get ldata "email" = Ok (PStr e) ->
  py_get ldata "password" = Ok (PStr p') ->
  serve Up (login lreq) (with_farmer db e p) =
    (Ok (if String.eqb p' p then welcome e else invalid_credentials), with_farmer db e p).
Proof.
  intros Hfresh Hjson Hemail Hpass.
  destruct (String.eqb p' p) eqn:Hp.
  - apply String.eqb_eq in Hp.
    rewrite (login_match (with_farmer db e p) lreq ldata (PStr e) (PStr p')
               (Some e) (Some p') Hjson Hemail Hpass (bind_text_str e) (bind_text_str p')).
    + rewrite py_str_str. reflexivity.
    + apply credentials_after_register; assumption.
  - apply String.eqb_neq in Hp. apply login_no_match.
    exists ldata, (PStr e), (PStr p'), (Some e), (Some p').
    repeat split; try assumption; try apply bind_text_str.
    intros Hstored. apply Hp.
    exact (proj1 (credentials_after_register db e p p' Hfresh) Hstored).
Qed.

(** X10.  After a successful registration of an email that was not stored,
    a login with that email succeeds exactly with the registered password:
    the greeting for that password, 401 for any other. *)
Theorem register_then_login
    (db : Database) (req lreq : Request) (data ldata : value) (e p p' : string) :
  request_json req = Ok data ->
  py_get data "email" = Ok (PStr e) ->
  py_get data "password" = Ok (PStr p) ->
  ~ In e (emails db) ->
  request_json lreq = Ok ldata ->
  py_get ldata "email" = Ok (PStr e) ->
  py_get ldata "password" = Ok (PStr p') ->
  let db1 := snd (serve Up (register req) db) in
  serve Up (login lreq) db1 =
    (Ok (if String.eqb p' p then welcome e else invalid_credentials), db1).
Proof.
  intros Hjson Hemail Hpass Hfresh Hljson Hlemail Hlpass db1.
  assert (Hdb1 : db1 = with_farmer db e p).
  { unfold db1. rewrite (register_fresh db req data e p Hjson Hemail Hpass Hfresh).
    reflexivity. }
  rewrite Hdb1. exact (login_after_register db e p p' lreq ldata Hfresh Hljson Hlemail Hlpass).
Qed.

(** X11.  The first registration of an email keeps its password: after a
    second registration of the same email with another password, a login
    still succeeds exactly with the first password. *)
Theorem first_registration_wins
    (db : Database) (req1 req2 lreq : Request) (data1 data2 ldata : value)
    (e p1 p2 p' : string) :
  request_json req1 = Ok data1 ->
  py_get data1 "email" = Ok (PStr e) ->
  py_get data1 "password" = Ok (PStr p1) ->
  ~ In e (emails db) ->
  request_json req2 = Ok data2 ->
  py_get data2 "email" = Ok (PStr e) ->
  py_get data2 "password" = Ok (PStr p2) ->
  request_json lreq = Ok ldata ->
  py_get ldata "email" = Ok (PStr e) ->
  py_get ldata "password" = Ok (PStr p') ->
  let db2 := snd (serve Up (register req2) (snd (serve Up (register req1) db))) in
  serve Up (login lreq) db2 =
    (Ok (if String.eqb p' p1 then welcome e else invalid_credentials), db2).
Proof.
  intros Hjson1 Hemail1 Hpass1 Hfresh Hjson2 Hemail2 Hpass2 Hljson Hlemail Hlpass db2.
  assert (Hdb2 : db2 = with_farmer db e p1).
  { unfold db2.
    rewrite (register_fresh db req1 data1 e p1 Hjson1 Hemail1 Hpass1 Hfresh). simpl.
    rewrite (register_conflict (with_farmer db e p1) req2 data2 e (PStr p2)
               Hjson2 Hemail2 Hpass2).
    - reflexivity.
    - unfold emails, with_farmer. simpl. rewrite map_app.
      apply in_or_app. right. left. reflexivity. }
  rewrite Hdb2.
  exact (login_after_register db e p1 p' lreq ldata Hfresh Hljson Hlemail Hlpass).
Qed.

End RoundTrip.

Lemma sample_email_fresh : ~ In "asha@farm.example" (emails Sample.one_farmer).
Proof. simpl. intros [H | []]. discriminate H. Qed.

Lemma register_then_login_witness :
  let db1 := snd (serve Up (register (Sample.credentials "asha@farm.example" "monsoon"))
                        Sample.one_farmer) in
  serve Up (login (Sample.credentials "asha@farm.example" "monsoon")) db1 =
    (Ok (if String.eqb "monsoon" "monsoon"
         then welcome "asha@farm.example" else invalid_credentials), db1).
Proof.
  exact (@register_then_login Exact.platform Sample.one_farmer
           (Sample.credentials "asha@farm.example" "monsoon")
           (Sample.credentials "asha@farm.example" "monsoon")
           (PDict [("email", PStr "asha@farm.example"); ("password", PStr "monsoon")])
           (PDict [("email", PStr "asha@farm.example"); ("password", PStr "monsoon")])
           "asha@farm.example" "monsoon" "monsoon"
           eq_refl eq_refl eq_refl sample_email_fresh eq_refl eq_refl eq_refl).
Defined.

Lemma first_registration_wins_witness :
  let db2 := snd (serve Up (register (Sample.credentials "asha@farm.example" "drought"))
                   (snd (serve Up (register (Sample.credentials "asha@farm.example" "monsoon"))
                               Sample.one_farmer))) in
  serve Up (login (Sample.credentials "asha@farm.example" "drought")) db2 =
    (Ok (if String.eqb "drought" "monsoon"
         then welcome "asha@farm.example" else invalid_credentials), db2).
Proof.
  exact (@first_registration_wins Exact.platform Sample.one_farmer
           (Sample.credentials "asha@farm.example" "monsoon")
           (Sample.credentials "asha@farm.example" "drought")
           (Sample.credentials "asha@farm.example" "drought")
           (PDict [("email", PStr "asha@farm.example"); ("password", PStr "monsoon")])
           (PDict [("email", PStr "asha@farm.example"); ("password", PStr "drought")])
           (PDict [("email", PStr "asha@farm.example"); ("password", PStr "drought")])
           "asha@farm.example" "monsoon" "drought" "drought"
           eq_refl eq_refl eq_refl sample_email_fresh
           eq_refl eq_refl eq_refl eq_refl eq_refl eq_refl).
Defined.

(** ** The tables over a sequence of calls *)

Section Tables.

Context {pf : Platform}.

Lemma committed_cases (db db' : Database) :
  committed db db' ->
  db' = db \/
  (exists e p, ~ In e (emails db) /\ db' = with_farmer db e p) \/
  (exists row,
     r_id row = next_rowid (map r_id (recommendations db)) /\
     db' = {| farmers := farmers db;
              recommendations := recommendations db ++ [row] |}).
Proof.
  intros [Hsame | [o Hins]]; [left; exact Hsame | right].
  destruct o as [email password | email label N P K T H PH R].
  - left. apply insert_farmer_inv in Hins.
    destruct Hins as [e [p [_ [_ [Hfresh Hdb]]]]]. exists e, p. split; assumption.
  - right. apply insert_recommendation_inv in Hins.
    destruct Hins as [e [c [_ [_ Hdb]]]]. eexists. split; [| exact Hdb]. reflexivity.
Qed.

(** An invariant of every single commit is an invariant of every sequence
    of calls. *)
Lemma run_calls_invariant (I : Database -> Prop) :
  (forall db db', committed db db' -> I db -> I db') ->
  forall (g : Globals) (calls : list (Engine * Call)) (db : Database),
    I db -> I (run_calls g calls db).
Proof.
  intros Hstep g calls. unfold run_calls.
  induction calls as [| [eng c] calls IH]; simpl; intros db Hdb.
  - exact Hdb.
  - apply IH. exact (Hstep _ _ (serve_committed eng g c db) Hdb).
Qed.

(** X12.  The tables only grow at the end: after any sequence of calls
    every row that was stored is still there, unchanged and in its place,
    followed by the rows the calls added.  No view updates or deletes. *)
Theorem tables_append_only (g : Globals) (calls : list (Engine * Call)) (db0 : Database) :
  exists (fs : list Farmer) (rs : list CropRecommendation),
    farmers (run_calls g calls db0) = (farmers db0 ++ fs)%list /\
    recommendations (run_calls g calls db0) = (recommendations db0 ++ rs)%list.
Proof.
  apply (run_calls_invariant
           (fun db => exists fs rs,
                farmers db = (farmers db0 ++ fs)%list /\
                recommendations db = (recommendations db0 ++ rs)%list)).
  - intros db db' Hstep [fs [rs [Hf Hr]]].
    destruct (committed_cases db db' Hstep)
      as [Hsame | [[e [p [_ Hdb]]] | [row [Hid Hdb]]]]; subst db'.
    + exists fs, rs. split; assumption.
    + eexists (fs ++ [_])%list, rs. unfold with_farmer. simpl.
      rewrite Hf at 1. rewrite <- app_assoc. split; [reflexivity | exact Hr].
    + exists fs, (rs ++ [row])%list. simpl.
      rewrite Hr at 1. rewrite <- app_assoc. split; [exact Hf | reflexivity].
  - exists [], []. rewrite !app_nil_r. split; reflexivity.
Qed.

(** X13.  Both primary keys stay keys: if the farmer ids are distinct
    before a sequence of calls they are distinct after it, and the same for
    the recommendation ids. *)
Theorem primary_keys_preserved (g : Globals) (calls : list (Engine * Call))
    (db : Database) :
  (NoDup (map f_id (farmers db)) ->
   NoDup (map f_id (farmers (run_calls g calls db)))) /\
  (NoDup (map r_id (recommendations db)) ->
   NoDup (map r_id (recommendations (run_calls g calls db)))).
Proof.
  split.
  - apply (run_calls_invariant (fun db => NoDup (map f_id (farmers db)))).
    intros d d' Hstep Hkey.
    destruct (committed_cases d d' Hstep)
      as [Hsame | [[e [p [_ Hdb]]] | [row [Hid Hdb]]]]; subst d'.
    + exact Hkey.
    + unfold with_farmer. simpl. rewrite map_app. simpl.
      apply NoDup_snoc; [exact Hkey | apply next_rowid_fresh].
    + exact Hkey.
  - apply run_calls_ids_distinct.
Qed.

Lemma fold_max_bounded (m : Z) (l : list Z) :
  Forall (fun i => i <= m) l -> fold_right Z.max m l = m.
Proof.
  induction 1 as [| i l Hi Hl IH]; simpl; [reflexivity |].
  rewrite IH. apply Z.max_r. exact Hi.
Qed.

(** After a row with the largest id, the next rowid is one more. *)
Lemma next_rowid_snoc (l : list Z) (m : Z) :
  Forall (fun i => i <= m) l -> next_rowid (l ++ [m]) = m + 1.
Proof.
  intros Hle. unfold next_rowid. destruct l as [| i rest]; simpl; [reflexivity |].
  inversion Hle as [| i' rest' Hi Hrest]; subst.
  rewrite fold_right_app. simpl. rewrite (Z.max_l m i Hi).
  rewrite (fold_max_bounded m rest Hrest). reflexivity.
Qed.

Lemma ids_from_one_succ (n : nat) :
  ids_from_one (S n) = (ids_from_one n ++ [Z.of_nat (S n)])%list.
Proof.
  unfold ids_from_one. rewrite seq_S, map_app. reflexivity.
Qed.

Lemma next_rowid_ids_from_one (n : nat) :
  next_rowid (ids_from_one n) = Z.of_nat (S n).
Proof.
  destruct n as [| n]; [reflexivity |].
  rewrite ids_from_one_succ, next_rowid_snoc; [lia |].
  unfold ids_from_one. rewrite Forall_forall. intros i Hin.
  apply in_map_iff in Hin. destruct Hin as [k [Hk Hin]]. apply in_seq in Hin. lia.
Qed.

(** X14.  Ids count the rows: in every database the views build from the
    empty one, the farmers carry the ids 1, 2, ..., in the order they were
    registered, and the recommendations likewise. *)
Theorem ids_count_from_one (g : Globals) (calls : list (Engine * Call)) :
  map f_id (farmers (run_calls g calls no_rows))
  = ids_from_one (List.length (farmers (run_calls g calls no_rows))) /\
  map r_id (recommendations (run_calls g calls no_rows))
  = ids_from_one (List.length (recommendations (run_calls g calls no_rows))).
Proof.
  apply (run_calls_invariant
           (fun db => map f_id (farmers db) = ids_from_one (List.length (farmers db)) /\
                      map r_id (recommendations db)
                      = ids_from_one (List.length (recommendations db)))).
  - intros db db' Hstep [Hf Hr].
    destruct (committed_cases db db' Hstep)
      as [Hsame | [[e [p [_ Hdb]]] | [row [Hid Hdb]]]]; subst db'.
    + split; assumption.
    + split; [| exact Hr]. unfold with_farmer. simpl.
      rewrite map_app, length_app. simpl. rewrite Nat.add_1_r, ids_from_one_succ.
      rewrite Hf at 1. rewrite Hf, next_rowid_ids_from_one. reflexivity.
    + split; [exact Hf |]. simpl.
      rewrite map_app, length_app. simpl. rewrite Nat.add_1_r, ids_from_one_succ.
      rewrite Hid. rewrite Hr at 1. rewrite Hr, next_rowid_ids_from_one. reflexivity.
  - split; reflexivity.
Qed.

End Tables.

(** ** The dump after recommendations *)

Section Newest.

Context {pf : Platform}.

(** Every id in use is below the next rowid. *)
Lemma next_rowid_above (ids : list Z) (i : Z) : In i ids -> i < next_rowid ids.
Proof.
  unfold next_rowid. destruct ids as [| j rest]; [intros [] |].
  intros Hin. apply fold_max_upper in Hin. lia.
Qed.

(** A row whose id is above all others comes first in the ordering. *)
Lemma order_by_id_desc_newest (l : list CropRecommendation) (r : CropRecommendation) :
  (forall y, In y l -> r_id y < r_id r) ->
  order_by_id_desc (l ++ [r]) = r :: order_by_id_desc l.
Proof.
  unfold order_by_id_desc. induction l as [| x rest IH]; simpl; intros Hbelow.
  - reflexivity.
  - rewrite IH by (intros y Hy; apply Hbelow; right; exact Hy). simpl.
    assert (Hx : r_id x < r_id r) by (apply Hbelow; left; reflexivity).
    destruct (r_id r <=? r_id x) eqn:Hle; [| reflexivity].
    apply Z.leb_le in Hle. lia.
Qed.

Lemma order_by_id_desc_next (rs : list CropRecommendation) (row : CropRecommendation) :
  r_id row = next_rowid (map r_id rs) ->
  order_by_id_desc (rs ++ [row]) = row :: order_by_id_desc rs.
Proof.
  intros Hid. apply order_by_id_desc_newest.
  intros y Hy. rewrite Hid. apply next_rowid_above. apply in_map. exact Hy.
Qed.

(** X15.  Newest first means last stored first: in every database the
    views build from the empty one, when every stored [crop_name] is text
    and the engine is up, the dump lists the recommendations in the
    reverse of the order they were stored, after the farmers in the order
    they were registered. *)
Theorem admin_data_reverse_chronological (g : Globals) (calls : list (Engine * Call)) :
  let db := run_calls g calls no_rows in
  crop_names_are_text db ->
  serve Up admin_data db
  = (Ok (admin_document (farmers db) (rev (recommendations db))), db).
Proof.
  intros db Htext.
  assert (Hrev : order_by_id_desc (recommendations db) = rev (recommendations db)).
  { unfold db.
    apply (run_calls_invariant
             (fun d => order_by_id_desc (recommendations d) = rev (recommendations d))).
    - intros d d' Hstep Hd.
      destruct (committed_cases d d' Hstep)
        as [Hsame | [[e [p [_ Hdb]]] | [row [Hid Hdb]]]]; subst d'.
      + exact Hd.
      + exact Hd.
      + simpl. rewrite (order_by_id_desc_next _ _ Hid), Hd, rev_unit. reflexivity.
    - reflexivity. }
  rewrite admin_data_served.
  rewrite (proj1 (crop_names_are_text_forallb db) Htext), Hrev. reflexivity.
Qed.


(** X17.  The fallback function answers every row of seven values with one
    of its five labels, and raises a [ValueError] on a row of any other
    length. *)
Theorem predict_crop_mock_labels (features : list float) :
  (List.length features = 7%nat ->
   exists label, predict_crop_mock features = Ok label /\ In label fallback_labels) /\
  (List.length features <> 7%nat ->
   exists x, predict_crop_mock features = Raise x /\ exn_class x = "ValueError").
Proof.
  unfold predict_crop_mock, fallback_labels.
  destruct features as [| N [| P [| K [| temp [| hum [| ph [| rain [| extra rest]]]]]]]];
    simpl; split; intros Hlen; try discriminate Hlen; try (exfalso; apply Hlen; reflexivity);
    try (eexists; split; reflexivity).
  destruct (float_gt N 100 && float_gt temp 25);
    [| destruct (float_gt K 50 && float_lt ph 6);
       [| destruct (float_gt P 50 && float_lt hum 70);
          [| destruct (float_lt temp 20 && float_gt rain 200)]]];
    eexists; (split; [reflexivity | simpl; tauto]).
Qed.

End Newest.

Lemma sample_farmer_ids_distinct : NoDup (map f_id (farmers Sample.one_farmer)).
Proof. vm_compute. constructor; [intros [] | constructor]. Qed.

Lemma primary_keys_preserved_witness :
  NoDup (map f_id (farmers (run_calls (Sample.loaded (Sample.constant_classifier "Rice"))
                                      MoreSamples.busy_day Sample.one_farmer))).
Proof.
  exact (proj1 (@primary_keys_preserved Exact.platform
                  (Sample.loaded (Sample.constant_classifier "Rice"))
                  MoreSamples.busy_day Sample.one_farmer)
               sample_farmer_ids_distinct).
Defined.

Lemma busy_day_crop_names_are_text :
  crop_names_are_text
    (run_calls (Sample.loaded (Sample.constant_classifier "Rice"))
               MoreSamples.busy_day no_rows).
Proof.
  intros r Hin. vm_compute in Hin.
  destruct Hin as [Hr | [Hr | []]]; subst r; eexists; reflexivity.
Qed.

Lemma admin_data_reverse_chronological_witness :
  let db := run_calls (Sample.loaded (Sample.constant_classifier "Rice"))
                      MoreSamples.busy_day no_rows in
  serve Up admin_data db
  = (Ok (admin_document (farmers db) (rev (recommendations db))), db).
Proof.
  exact (@admin_data_reverse_chronological Exact.platform
           (Sample.loaded (Sample.constant_classifier "Rice"))
           MoreSamples.busy_day busy_day_crop_names_are_text).
Defined.


(** With [N] the string "nan" the stored row and its entry in the dump
    carry null for [N]. *)
Example nan_is_dumped_as_null :
  let db : @Database WithNaN.platform := {| farmers := []; recommendations := [] |} in
  let db1 := snd (serve Up (crop_recommendation Sample.rice_for_nan Sample.measurements_nan)
                        db) in
  fst (@serve WithNaN.platform Up admin_data db1)
  = Ok (@Build_Response WithNaN.platform
          (PDict [("success", PBool true);
                   ("farmers", PList []);
                   ("recommendations",
                    PList [PDict [("id", PInt 1);
                                  ("farmer_email", PStr "ravi@farm.example");
                                  ("crop_name", PStr "Rice");
                                  ("N", PNone);
                                  ("P", PFloat (Some (inject_Z 10)));
                                  ("K", PFloat (Some (inject_Z 10)));
                                  ("Temperature", PFloat (Some (inject_Z 30)));
                                  ("Humidity", PFloat (Some (inject_Z 50)));
                                  ("PH", PFloat (Some (inject_Z 5)));
                                  ("Rainfall", PFloat (Some (inject_Z 100)))]])])
          200).
Proof. reflexivity. Qed.

(** The new row of the sample gets id 3 and comes before ids 2 and 1. *)
Example sample_dump_order :
  map r_id
      (new_recommendation Sample.two_recommendations "ravi@farm.example" "Rice"
         (inject_Z 120) (inject_Z 10) (inject_Z 10) (inject_Z 30)
         (inject_Z 50) (inject_Z 5) (inject_Z 100)
       :: order_by_id_desc (recommendations Sample.two_recommendations))
  = [3; 2; 1].
Proof. reflexivity. Qed.

Lemma predict_crop_mock_labels_witness :
  exists label,
    @predict_crop_mock Exact.platform
      [inject_Z 20; inject_Z 60; inject_Z 10; inject_Z 30; inject_Z 50; inject_Z 7;
       inject_Z 100] = Ok label /\
    In label fallback_labels.
Proof.
  exact (proj1 (@predict_crop_mock_labels Exact.platform
                  [inject_Z 20; inject_Z 60; inject_Z 10; inject_Z 30; inject_Z 50;
                   inject_Z 7; inject_Z 100])
               eq_refl).
Defined.

(** ** A label that is not text *)

Section ObjectLabels.

Context {pf : Platform}.


End ObjectLabels.

